(** * nerve: the serving gateway ([nerve/cli/serve.py])

    A shallow embedding of the serving gateway of nerve: the input
    resolver ([_get_input_state_from_request]), the two request handlers
    built by [_create_agent_call_endpoint] and [_create_tool_call_endpoint],
    the route table builder ([_get_rest_api_app]) and the start-up routine
    ([_serve]) with its mode resolution.

    Conventions of the embedding:
    - a Python [dict] is an insertion-ordered association list with the
      operations of module [PyDict]; the order is kept because the resolver
      raises at the first declared input that is missing;
    - a Python object that the handlers pass around is a [value];
    - a call that may raise returns a [result];
    - calls to [logger] only write to the log and are left out; so is the
      [client_host] string, which is computed for a log line only;
    - the external collaborators ([Runner], [Runtime.build], the loading of
      a [Configuration], [create_server], [create_sse_app], [pathlib]) are
      the fields of the class [Collaborators];
    - the handlers are embedded as the Python functions they are, which
      take any dict; what FastAPI does around them for a route registered
      with [add_api_route] is [route_post]: it reads the body as the
      declared [dict[str, str]], calls the handler, and validates the
      returned value against [response_model=dict];
    - [_serve] runs in a monad that records its outside calls in program
      order, so that what is built before what can be stated; it ends as
      the serving call does. *)

From Stdlib Require Import String Ascii List Bool Arith ZArith Lia.
Import ListNotations.
Open Scope string_scope.
Open Scope list_scope.

Set Warnings "-register-all".

(** ** Python values, exceptions and results *)

Inductive value : Type :=
| VNone
| VBool (b : bool)
| VInt (z : Z)
| VStr (s : string)
| VList (l : list value)
| VDict (d : list (string * value)).

(** [v is None] *)
Definition is_None (v : value) : bool :=
  match v with
  | VNone => true
  | _ => false
  end.

Inductive exn : Type :=
| HTTPException (status_code : nat) (detail : string)
| KeyError (key : string)
| Abort
| OtherError (msg : string)
| RequestValidationError
| ResponseValidationError.

Inductive result (A : Type) : Type :=
| Ok (a : A)
| Raise (e : exn).

Arguments Ok {A} a.
Arguments Raise {A} e.

Definition is_Ok {A : Type} (r : result A) : bool :=
  match r with
  | Ok _ => true
  | Raise _ => false
  end.

(** ** Python dictionaries *)

Module PyDict.
Section Dict.
Context {V : Type}.

Definition t : Type := list (string * V).

Definition keys (d : t) : list string := map fst d.

Definition values (d : t) : list V := map snd d.

(** The invariant of a Python dict: no key occurs twice. *)
Definition wf (d : t) : Prop := NoDup (keys d).

Fixpoint lookup (d : t) (k : string) : option V :=
  match d with
  | [] => None
  | (k', v) :: d' => if String.eqb k' k then Some v else lookup d' k
  end.

(** [k in d] *)
Definition contains (d : t) (k : string) : bool :=
  match lookup d k with
  | Some _ => true
  | None => false
  end.

(** [d.get(k, default)] *)
Definition get (d : t) (k : string) (default : V) : V :=
  match lookup d k with
  | Some v => v
  | None => default
  end.

(** [d[k]] *)
Definition getitem (d : t) (k : string) : result V :=
  match lookup d k with
  | Some v => Ok v
  | None => Raise (KeyError k)
  end.

(** [d[k] = v]: an existing key keeps its position, a new key goes last. *)
Fixpoint set (d : t) (k : string) (v : V) : t :=
  match d with
  | [] => [(k, v)]
  | (k', v') :: d' =>
      if String.eqb k' k then (k', v) :: d' else (k', v') :: set d' k v
  end.

(** [d.copy()]: a new dict with the same items; later writes to the copy
    do not reach [d]. *)
Definition copy (d : t) : t := d.

(** [bool(d)]: a dict is true when it is not empty. *)
Definition truthy (d : t) : bool :=
  match d with
  | [] => false
  | _ :: _ => true
  end.
End Dict.
Arguments t V : clear implicits.
End PyDict.

Abbreviation dict := PyDict.t.

(** The [result] monad: a raised exception ends the computation. *)
Definition result_bind {A B : Type} (m : result A) (k : A -> result B) : result B :=
  match m with
  | Ok a => k a
  | Raise e => Raise e
  end.

Declare Scope result_scope.
Delimit Scope result_scope with result.
Notation "x <- m ;; k" := (result_bind m (fun x => k))
  (at level 61, m at next level, right associativity) : result_scope.

(** ** Strings *)

(** [str.lower] on one character: the letters [A]..[Z] go to [a]..[z].
    Bytes outside ASCII are kept; no character outside ASCII lowers to one
    of the letters of ["true"], which is the only string compared with. *)
Definition lower_ascii (c : ascii) : ascii :=
  let n := nat_of_ascii c in
  if (65 <=? n)%nat && (n <=? 90)%nat then ascii_of_nat (n + 32) else c.

(** [s.lower()] *)
Fixpoint lower (s : string) : string :=
  match s with
  | EmptyString => EmptyString
  | String c s' => String (lower_ascii c) (lower s')
  end.

(** Truth value of an attribute of type [str | None]: [None] and the empty
    string are false. *)
Definition truthy_str (o : option string) : bool :=
  match o with
  | None => false
  | Some s => negb (String.eqb s "")
  end.

(** ** The input resolver *)

(** [f"input '{input_name}' is required"] *)
Definition required_detail (input_name : string) : string :=
  "input '" ++ input_name ++ "' is required".

Definition missing_input (input_name : string) : exn :=
  HTTPException 400 (required_detail input_name).

(** Line 39: [data.get(input_name, inputs.get(input_name, None))]. *)
Definition input_value (inputs data : dict value) (input_name : string) : value :=
  PyDict.get data input_name (PyDict.get inputs input_name VNone).

(** The body of the [for] loop of [_get_input_state_from_request], run over
    the keys still to visit. Writing to a key that is present does not
    change the key list ([PyDict_keys_set_present] below), so the keys that
    the loop visits are those of the copy as it was made. *)
Fixpoint input_state_loop (inputs data : dict value) (names : list string)
  (input_state : dict value) : result (dict value) :=
  match names with
  | [] => Ok input_state
  | input_name :: names' =>
      let v := input_value inputs data input_name in
      if is_None v then Raise (missing_input input_name)
      else input_state_loop inputs data names' (PyDict.set input_state input_name v)
  end.

Definition _get_input_state_from_request (inputs data : dict value)
  : result (dict value) :=
  let input_state := PyDict.copy inputs in
  input_state_loop inputs data (PyDict.keys input_state) input_state.

(** The first declared input, in declaration order, whose value is [None]. *)
Definition first_missing (inputs data : dict value) : option string :=
  find (fun k => is_None (input_value inputs data k)) (PyDict.keys inputs).

(** ** Requests, tools and the configuration *)

(** [request.client] *)
Record Address : Type := { host : string; port : Z }.

(** A starlette [Request], as far as the handlers read it: the query
    parameters (one value per name) and the peer address. *)
Record Request : Type := {
  query_params : dict string;
  client : option Address
}.

(** Modelled from the spec: a ToolDescriptor of the tool runtime
    ([nerve.runtime] is not part of the sources at hand): the callable with
    its [__name__], its [__doc__] and what awaiting a call with the given
    keyword arguments gives. *)
Record Tool : Type := {
  tool_name : string;
  tool_doc : option string;
  tool_call : dict value -> result value
}.

(** Modelled from the spec: [nerve.runtime.Runtime], of which the gateway
    reads the attribute [tools] only. *)
Record Runtime : Type := { tools : list Tool }.

(** Modelled from the spec: [nerve.models.Configuration] (AgentConfiguration
    of the data model), with the attributes that the gateway reads and the
    result of its method [get_inputs()]: a map from each declared input
    name to its default, [None] when there is none. *)
Record Configuration : Type := {
  description : string;
  system_prompt : option string;
  agent : option string;
  task : option string;
  get_inputs : dict value
}.

(** ** The route table *)

(** The two kinds of handler, told apart by their signature: the agent
    handler has a mandatory body, the tool handler has
    [Body(default=None)]. *)
Inductive Endpoint : Type :=
| AgentEndpoint (on_request : dict value -> Request -> result value)
| ToolEndpoint (on_request : option (dict value) -> Request -> result value).

(** The [response_model] of a route: the type against which FastAPI
    validates the value that the handler returns. The gateway uses [dict]
    only. *)
Inductive ResponseModel : Type :=
| DictModel.

Record Route : Type := {
  path : string;
  endpoint : Endpoint;
  methods : list string;
  response_model : ResponseModel;
  summary : option string
}.

(** Validation of a returned value against the response model: [dict]
    accepts a dict, with any keys and values, and nothing else. *)
Definition validates (m : ResponseModel) (v : value) : bool :=
  match m, v with
  | DictModel, VDict _ => true
  | DictModel, _ => false
  end.

Definition is_str (v : value) : bool :=
  match v with
  | VStr _ => true
  | _ => false
  end.

(** [dict[str, str]]: every value of the dict is a string. *)
Definition str_values (d : dict value) : bool :=
  forallb (fun kv => is_str (snd kv)) d.

(** The body of a POST, absent or a JSON value, read as the parameter
    [data: dict[str, str]] of a handler: an absent body and the JSON
    [null] count as no body; a JSON object whose values are all strings is
    the parameter; any other body is invalid. *)
Inductive Body : Type :=
| NoBody
| InvalidBody
| DictBody (data : dict value).

Definition read_body (body : option value) : Body :=
  match body with
  | None => NoBody
  | Some VNone => NoBody
  | Some (VDict d) => if str_values d then DictBody d else InvalidBody
  | Some _ => InvalidBody
  end.

(** What a route registered with [add_api_route] does with a POST.
    FastAPI reads the body as the parameter [data] of the handler: the
    agent handler declares it mandatory, the tool handler declares
    [Body(default=None)]; a body that does not fit is refused with
    [RequestValidationError] (status 422) and the handler is not called.
    The value that the handler returns is then validated against the
    response model of the route. An exception of the handler goes
    through. *)
Definition route_post (r : Route) (body : option value) (request : Request)
  : result value :=
  let returned :=
    match endpoint r, read_body body with
    | AgentEndpoint on_request, DictBody data => on_request data request
    | AgentEndpoint _, NoBody => Raise RequestValidationError
    | ToolEndpoint on_request, DictBody data => on_request (Some data) request
    | ToolEndpoint on_request, NoBody => on_request None request
    | _, InvalidBody => Raise RequestValidationError
    end in
  match returned with
  | Ok v => if validates (response_model r) v then Ok v
            else Raise ResponseValidationError
  | Raise e => Raise e
  end.

(** A [FastAPI] application, as the list of the routes registered with
    [add_api_route], in registration order. *)
Record FastAPI : Type := { routes : list Route }.

Definition new_FastAPI : FastAPI := {| routes := [] |}.

Definition add_api_route (app : FastAPI) (r : Route) : FastAPI :=
  {| routes := routes app ++ [r] |}.

Definition is_agent_route (r : Route) : bool :=
  match endpoint r with
  | AgentEndpoint _ => true
  | ToolEndpoint _ => false
  end.

(** ** External collaborators *)

Class Collaborators : Type := {
  (** Python's [float] and [pathlib.Path]; the gateway only hands such
      values on. *)
  float : Type;
  Path : Type;
  path_stem : Path -> string;
  path_name : Path -> string;
  path_parent : Path -> Path;
  path_is_dir : Path -> bool;
  (** [nerve.cli.utils._resolve_input_path] *)
  _resolve_input_path : Path -> result Path;
  (** [Configuration.is_agent_config] and [Configuration.from_path] *)
  Configuration_is_agent_config : Path -> bool;
  Configuration_from_path : Path -> result Configuration;
  (** [await Runner(input_path, generator, conversation_strategy, max_steps,
      max_cost, timeout, quiet, input_state).run()] *)
  Runner_run : Path -> string -> string -> Z -> float -> option Z -> bool ->
               dict value -> result (dict value);
  (** [await Runtime.build(working_dir, name, configuration, debug)] *)
  Runtime_build : Path -> string -> Configuration -> bool -> result Runtime;
  (** [nerve.tools.mcp.server]: [create_server] and [create_sse_app] build
      the server objects and are taken to return *)
  Server : Type;
  SseApp : Type;
  create_server : string -> Configuration -> dict value -> Path -> string ->
                  string -> Z -> float -> option Runtime -> option Z -> bool ->
                  bool -> bool -> Server;
  create_sse_app : bool -> Server -> SseApp;
  (** [await uvicorn.Server(uvicorn.Config(app, host=host, port=port,
      log_level=log_level)).serve()], for the REST or the SSE application:
      how the server ends, when it does *)
  uvicorn_serve : FastAPI + SseApp -> string -> Z -> string -> result unit;
  (** [async with stdio_server() as streams: await server.run(streams[0],
      streams[1], server.create_initialization_options())] *)
  stdio_run : Server -> result unit
}.

(** Line 62: [request.query_params.get("full", "false").lower() == "true"] *)
Definition raw_requested (request : Request) : bool :=
  String.eqb (lower (PyDict.get (query_params request) "full" "false")) "true".

(** A value of [full] that [raw_requested] accepts: the four letters of
    [true], each in either case. *)
Definition spells_true (s : string) : bool :=
  match s with
  | String c1 (String c2 (String c3 (String c4 EmptyString))) =>
      (Ascii.eqb c1 "t" || Ascii.eqb c1 "T")
      && (Ascii.eqb c2 "r" || Ascii.eqb c2 "R")
      && (Ascii.eqb c3 "u" || Ascii.eqb c3 "U")
      && (Ascii.eqb c4 "e" || Ascii.eqb c4 "E")
  | _ => false
  end.

Section Gateway.
Context {W : Collaborators}.
Local Open Scope result_scope.

(** ** Request handlers *)

Definition _create_agent_call_endpoint (input_path : Path)
  (generator conversation_strategy : string) (max_steps : Z)
  (max_cost : float) (timeout : option Z) (quiet : bool)
  (inputs : dict value) : dict value -> Request -> result value :=
  fun data request =>
    let raw := raw_requested request in
    input_state <- _get_input_state_from_request inputs data ;;
    output_state <- Runner_run input_path generator conversation_strategy
                      max_steps max_cost timeout quiet input_state ;;
    if raw then Ok (VDict output_state)
    else PyDict.getitem output_state "output".

(** [data if data else {}] *)
Definition tool_kwargs (data : option (dict value)) : dict value :=
  match data with
  | Some d => if PyDict.truthy d then d else []
  | None => []
  end.

Definition _create_tool_call_endpoint (tool : Tool)
  : option (dict value) -> Request -> result value :=
  fun data request =>
    r <- tool_call tool (tool_kwargs data) ;;
    Ok (VDict [("result", r)]).

(** ** Loading the agent *)

Definition _get_agent_name (input_path : Path) : string :=
  let stem := path_stem input_path in
  if existsb (String.eqb stem) ["agent"; "workflow"; "task"]
  then path_name (path_parent input_path)
  else stem.

Definition _get_agent_with_inputs (input_path : Path)
  : result (Path * string * Configuration * dict value) :=
  resolved_input_path <- _resolve_input_path input_path ;;
  if negb (Configuration_is_agent_config resolved_input_path)
  then Raise Abort
  else
    config <- Configuration_from_path resolved_input_path ;;
    let agent_name := _get_agent_name resolved_input_path in
    let inputs := get_inputs config in
    Ok (resolved_input_path, agent_name, config, inputs).

(** ** The route table builder *)

Definition agent_route (input_path : Path)
  (generator conversation_strategy : string) (max_steps : Z)
  (max_cost : float) (timeout : option Z) (quiet : bool)
  (inputs : dict value) (config : Configuration) : Route :=
  {| path := "/";
     endpoint := AgentEndpoint
       (_create_agent_call_endpoint input_path generator
          conversation_strategy max_steps max_cost timeout quiet inputs);
     methods := ["POST"];
     response_model := DictModel;
     summary := Some (description config) |}.

Definition tool_route (tool : Tool) : Route :=
  {| path := "/" ++ tool_name tool;
     endpoint := ToolEndpoint (_create_tool_call_endpoint tool);
     methods := ["POST"];
     response_model := DictModel;
     summary := tool_doc tool |}.

Definition _get_rest_api_app (input_path : Path)
  (generator conversation_strategy : string) (max_steps : Z)
  (max_cost : float) (timeout : option Z) (quiet : bool)
  (inputs : dict value) (config : Configuration)
  (runtime : option Runtime) (serve_tools tools_only : bool) : FastAPI :=
  let app := new_FastAPI in
  let app :=
    if negb tools_only
    then add_api_route app
           (agent_route input_path generator conversation_strategy
              max_steps max_cost timeout quiet inputs config)
    else app in
  (* [if serve_tools and runtime:] a [Runtime] object is true, [None] is
     false *)
  let app :=
    if serve_tools
    then match runtime with
         | Some rt =>
             fold_left (fun app tool => add_api_route app (tool_route tool))
                       (tools rt) app
         | None => app
         end
    else app in
  app.

(** ** Start-up *)

(** What [_serve] hands to a server: the REST application or the SSE
    application of the MCP server. *)
Inductive App : Type :=
| RestApp (app : FastAPI)
| SseTransport (app : SseApp).

(** The calls of [_serve] that reach outside of it, in program order:
    the construction of the tool runtime, the call of a route table
    builder ([_get_rest_api_app] or [create_server]) with the runtime and
    the flags it is given, and the call that serves until the process
    stops. *)
Inductive event : Type :=
| EvRuntimeBuild (working_dir : Path) (name : string)
    (configuration : Configuration) (debug : bool)
| EvRouteTable (runtime : option Runtime) (serve_tools tools_only : bool)
| EvServeHttp (app : App) (agent_name scheme host : string) (port : Z)
    (debug : bool)
| EvServeStdio (server : Server) (agent_name : string).

Definition is_runtime_build (e : event) : bool :=
  match e with
  | EvRuntimeBuild _ _ _ _ => true
  | _ => false
  end.

Definition is_route_table (e : event) : bool :=
  match e with
  | EvRouteTable _ _ _ => true
  | _ => false
  end.

(** A computation that logs its outside calls and may raise. *)
Definition M (A : Type) : Type := list event * result A.

Definition ret {A : Type} (a : A) : M A := ([], Ok a).

Definition bind {A B : Type} (m : M A) (k : A -> M B) : M B :=
  match m with
  | (tr, Ok a) => let (tr', r) := k a in (tr ++ tr', r)
  | (tr, Raise e) => (tr, Raise e)
  end.

Definition emit (e : event) : M unit := ([e], Ok tt).

Definition lift {A : Type} (r : result A) : M A := ([], r).

Notation "x <~ m ;; k" := (bind m (fun x => k))
  (at level 61, m at next level, right associativity).
Notation "m ;;; k" := (bind m (fun _ => k))
  (at level 61, right associativity).

(** Lines 311-318 of [_serve]: the flags after mode resolution, as the
    pair [(serve_tools, tools_only)]. In Python [and] binds tighter than
    [or]. *)
Definition resolve_mode (serve_tools tools_only : bool)
  (config : Configuration) : bool * bool :=
  if tools_only
     || (negb (truthy_str (system_prompt config))
         && negb (truthy_str (agent config))
         && negb (truthy_str (task config)))
  then (true, true)
  else if serve_tools then (serve_tools, tools_only)
  else (serve_tools, tools_only).

(** The application as [uvicorn] takes it. *)
Definition asgi (app : App) : FastAPI + SseApp :=
  match app with
  | RestApp a => inl a
  | SseTransport a => inr a
  end.

(** [log_level="debug" if debug else "warning"] *)
Definition uvicorn_log_level (debug : bool) : string :=
  if debug then "debug" else "warning".

(** The call is recorded, then the server runs; [_serve_http_app] ends as
    the server does. *)
Definition _serve_http_app (app : App) (agent_name scheme host : string)
  (port : Z) (debug : bool) : M unit :=
  emit (EvServeHttp app agent_name scheme host port debug) ;;;
  lift (uvicorn_serve (asgi app) host port (uvicorn_log_level debug)).

Definition _serve (input_path : Path) (host : string) (port : Z)
  (debug mcp mcp_sse serve_tools tools_only : bool)
  (generator conversation_strategy : string) (max_steps : Z)
  (max_cost : float) (timeout : option Z) (quiet : bool) : M unit :=
  loaded <~ lift (_get_agent_with_inputs input_path) ;;
  let '(input_path, agent_name, config, inputs) := loaded in
  let '(serve_tools, tools_only) :=
    resolve_mode serve_tools tools_only config in
  runtime <~
    (if serve_tools
     then
       let working_dir :=
         if path_is_dir input_path then input_path
         else path_parent input_path in
       emit (EvRuntimeBuild working_dir agent_name config debug) ;;;
       rt <~ lift (Runtime_build working_dir agent_name config debug) ;;
       ret (Some rt)
     else ret None) ;;
  if mcp || mcp_sse
  then
    emit (EvRouteTable runtime serve_tools tools_only) ;;;
    let server :=
      create_server agent_name config inputs input_path generator
        conversation_strategy max_steps max_cost runtime timeout quiet
        serve_tools tools_only in
    if mcp_sse
    then
      let app := create_sse_app debug server in
      _serve_http_app (SseTransport app) agent_name "sse" host port debug
    else
      emit (EvServeStdio server agent_name) ;;;
      lift (stdio_run server)
  else
    emit (EvRouteTable runtime serve_tools tools_only) ;;;
    let app :=
      _get_rest_api_app input_path generator conversation_strategy
        max_steps max_cost timeout quiet inputs config runtime serve_tools
        tools_only in
    _serve_http_app (RestApp app) agent_name "http" host port debug.

(** The events of the last part of [_serve], from line 329 on: the call
    of the route table builder of the transport with the runtime and the
    resolved flags, then the call that serves. *)
Definition served_events (host : string) (port : Z)
  (debug mcp mcp_sse : bool) (generator conversation_strategy : string)
  (max_steps : Z) (max_cost : float) (timeout : option Z) (quiet : bool)
  (input_path : Path) (agent_name : string) (config : Configuration)
  (inputs : dict value) (runtime : option Runtime)
  (serve_tools tools_only : bool) : list event :=
  EvRouteTable runtime serve_tools tools_only ::
  (if mcp || mcp_sse
   then
     let server :=
       create_server agent_name config inputs input_path generator
         conversation_strategy max_steps max_cost runtime timeout quiet
         serve_tools tools_only in
     if mcp_sse
     then [EvServeHttp (SseTransport (create_sse_app debug server))
             agent_name "sse" host port debug]
     else [EvServeStdio server agent_name]
   else [EvServeHttp
           (RestApp
              (_get_rest_api_app input_path generator conversation_strategy
                 max_steps max_cost timeout quiet inputs config runtime
                 serve_tools tools_only))
           agent_name "http" host port debug]).

(** How the last part of [_serve] ends: as the serving call does. *)
Definition served_result (host : string) (port : Z)
  (debug mcp mcp_sse : bool) (generator conversation_strategy : string)
  (max_steps : Z) (max_cost : float) (timeout : option Z) (quiet : bool)
  (input_path : Path) (agent_name : string) (config : Configuration)
  (inputs : dict value) (runtime : option Runtime)
  (serve_tools tools_only : bool) : result unit :=
  if mcp || mcp_sse
  then
    let server :=
      create_server agent_name config inputs input_path generator
        conversation_strategy max_steps max_cost runtime timeout quiet
        serve_tools tools_only in
    if mcp_sse
    then uvicorn_serve (inr (create_sse_app debug server)) host port
           (uvicorn_log_level debug)
    else stdio_run server
  else
    uvicorn_serve
      (inl (_get_rest_api_app input_path generator conversation_strategy
              max_steps max_cost timeout quiet inputs config runtime
              serve_tools tools_only))
      host port (uvicorn_log_level debug).

(** The REST application that a run of [_serve] served, if any. *)
Definition served_rest_app (tr : list event) : option FastAPI :=
  match find (fun e => match e with
                       | EvServeHttp (RestApp _) _ _ _ _ _ => true
                       | _ => false
                       end) tr with
  | Some (EvServeHttp (RestApp app) _ _ _ _ _) => Some app
  | _ => None
  end.

Definition is_serve_stdio (e : event) : bool :=
  match e with
  | EvServeStdio _ _ => true
  | _ => false
  end.

Definition is_serve_http (e : event) : bool :=
  match e with
  | EvServeHttp _ _ _ _ _ _ => true
  | _ => false
  end.

Definition is_serving (e : event) : bool :=
  is_serve_stdio e || is_serve_http e.

(** ** The command [serve] *)

(** [sys.stdout] and [sys.stderr] *)
Inductive LogTarget : Type :=
| Stdout
| Stderr.

(** The arguments of the call [logging.init(log_path, level=...,
    litellm_debug=..., target=...)]. *)
Record LoggingInit : Type := {
  log_path : option Path;
  log_level : string;
  log_litellm_debug : bool;
  log_target : LogTarget
}.

(** The command [serve]: it sets up logging, then runs [_serve]. The result
    is the set-up of the log together with the run of [_serve]. In Python
    [not] binds tighter than [and]. *)
Definition serve (input_path : Path) (host : string) (port : Z)
  (generator conversation_strategy : string)
  (debug litellm_debug quiet : bool) (max_steps : Z) (max_cost : float)
  (timeout : option Z) (log_file : option Path)
  (mcp mcp_sse serve_tools tools_only : bool) : LoggingInit * M unit :=
  let target := if mcp && negb mcp_sse then Stderr else Stdout in
  ({| log_path := log_file;
      log_level := if debug then "DEBUG" else "INFO";
      log_litellm_debug := litellm_debug;
      log_target := target |},
   _serve input_path host port debug mcp mcp_sse serve_tools tools_only
     generator conversation_strategy max_steps max_cost timeout quiet).
End Gateway.

(** ** Concrete collaborators and inputs, for the examples *)

Definition demo_config (sp : option string) (declared : dict value)
  : Configuration :=
  {| description := "demo agent";
     system_prompt := sp;
     agent := None;
     task := None;
     get_inputs := declared |}.

(** A tool that returns its keyword arguments. *)
Definition echo_tool : Tool :=
  {| tool_name := "echo";
     tool_doc := Some "Return the arguments.";
     tool_call := fun kwargs => Ok (VDict kwargs) |}.

Definition demo_runtime : Runtime := {| tools := [echo_tool] |}.

(** Collaborators over text paths: the agent configuration is [config],
    a run of the Runner gives [run input_state], building the tool runtime
    gives [built]. *)
Definition demo_world (config : Configuration)
  (run : dict value -> result (dict value)) (built : result Runtime)
  : Collaborators :=
  {| float := Z;
     Path := string;
     path_stem := fun p => p;
     path_name := fun p => p;
     path_parent := fun p => p;
     path_is_dir := fun _ => true;
     _resolve_input_path := fun p => Ok p;
     Configuration_is_agent_config := fun _ => true;
     Configuration_from_path := fun _ => Ok config;
     Runner_run := fun _ _ _ _ _ _ _ input_state => run input_state;
     Runtime_build := fun _ _ _ _ => built;
     Server := unit;
     SseApp := unit;
     create_server := fun _ _ _ _ _ _ _ _ _ _ _ _ _ => tt;
     create_sse_app := fun _ _ => tt;
     uvicorn_serve := fun _ _ _ _ => Ok tt;
     stdio_run := fun _ => Ok tt |}.

(** Collaborators for which no path holds an agent configuration. *)
Definition demo_world_invalid : Collaborators :=
  {| float := Z;
     Path := string;
     path_stem := fun p => p;
     path_name := fun p => p;
     path_parent := fun p => p;
     path_is_dir := fun _ => true;
     _resolve_input_path := fun p => Ok p;
     Configuration_is_agent_config := fun _ => false;
     Configuration_from_path := fun _ => Raise (OtherError "not read");
     Runner_run := fun _ _ _ _ _ _ _ input_state => Ok input_state;
     Runtime_build := fun _ _ _ _ => Raise (OtherError "not built");
     Server := unit;
     SseApp := unit;
     create_server := fun _ _ _ _ _ _ _ _ _ _ _ _ _ => tt;
     create_sse_app := fun _ _ => tt;
     uvicorn_serve := fun _ _ _ _ => Ok tt;
     stdio_run := fun _ => Ok tt |}.

(** Collaborators whose server cannot bind its port. *)
Definition demo_world_port_taken (config : Configuration) : Collaborators :=
  {| float := Z;
     Path := string;
     path_stem := fun p => p;
     path_name := fun p => p;
     path_parent := fun p => p;
     path_is_dir := fun _ => true;
     _resolve_input_path := fun p => Ok p;
     Configuration_is_agent_config := fun _ => true;
     Configuration_from_path := fun _ => Ok config;
     Runner_run := fun _ _ _ _ _ _ _ input_state => Ok input_state;
     Runtime_build := fun _ _ _ _ => Ok {| tools := [] |};
     Server := unit;
     SseApp := unit;
     create_server := fun _ _ _ _ _ _ _ _ _ _ _ _ _ => tt;
     create_sse_app := fun _ _ => tt;
     uvicorn_serve := fun _ _ _ _ => Raise (OtherError "address already in use");
     stdio_run := fun _ => Ok tt |}.

(** A tool without a documentation string. *)
Definition ping_tool : Tool :=
  {| tool_name := "ping";
     tool_doc := None;
     tool_call := fun _ => Ok (VStr "pong") |}.

(** A Runner whose output state holds the key [output] and one more. *)
Definition run_with_output (input_state : dict value) : result (dict value) :=
  Ok [("output", VStr "hi"); ("steps", VInt 3)].

(** A Runner whose output state holds a dict under the key [output]. *)
Definition run_with_dict_output (input_state : dict value)
  : result (dict value) :=
  Ok [("output", VDict [("text", VStr "hi")]); ("steps", VInt 3)].

(** A Runner whose output state lacks the key [output]. *)
Definition run_without_output (input_state : dict value) : result (dict value) :=
  Ok [("steps", VInt 3)].

Definition request_full (v : string) : Request :=
  {| query_params := [("full", v)]; client := None |}.

Definition request_plain : Request :=
  {| query_params := []; client := None |}.

(** ** Facts about dictionaries *)

Section DictFacts.
Context {V : Type}.
Implicit Types (d : dict V) (k : string) (v : V).

Lemma PyDict_lookup_set d k v k' :
  PyDict.lookup (PyDict.set d k v) k' =
  if String.eqb k k' then Some v else PyDict.lookup d k'.
Proof.
  induction d as [|[k0 v0] d IH]; simpl.
  - reflexivity.
  - destruct (String.eqb_spec k0 k) as [->|Hne]; simpl.
    + destruct (String.eqb k k'); reflexivity.
    + rewrite IH. destruct (String.eqb_spec k0 k') as [->|Hne'].
      * destruct (String.eqb_spec k k'); congruence.
      * reflexivity.
Qed.

Lemma PyDict_keys_set_present d k v :
  In k (PyDict.keys d) -> PyDict.keys (PyDict.set d k v) = PyDict.keys d.
Proof.
  induction d as [|[k0 v0] d IH]; simpl; intros Hin.
  - contradiction.
  - destruct (String.eqb_spec k0 k) as [->|Hne]; simpl.
    + reflexivity.
    + f_equal. apply IH. destruct Hin; congruence.
Qed.

Lemma PyDict_lookup_None d k :
  PyDict.lookup d k = None <-> ~ In k (PyDict.keys d).
Proof.
  induction d as [|[k0 v0] d IH]; simpl.
  - tauto.
  - destruct (String.eqb_spec k0 k) as [->|Hne].
    + split; [discriminate | intros H; exfalso; apply H; now left].
    + rewrite IH. split; [intros H [?|?]; congruence | tauto].
Qed.

Lemma PyDict_lookup_Some_In d k v :
  PyDict.lookup d k = Some v -> In (k, v) d.
Proof.
  induction d as [|[k0 v0] d IH]; simpl; [discriminate|].
  destruct (String.eqb_spec k0 k) as [->|Hne].
  - intros [= ->]. now left.
  - intros H. right. now apply IH.
Qed.

Lemma PyDict_In_lookup d k v :
  PyDict.wf d -> In (k, v) d -> PyDict.lookup d k = Some v.
Proof.
  unfold PyDict.wf.
  induction d as [|[k0 v0] d IH]; simpl; intros Hwf Hin; [contradiction|].
  inversion Hwf as [|? ? Hnotin Hwf']; subst.
  destruct Hin as [[= -> ->]|Hin].
  - now rewrite String.eqb_refl.
  - destruct (String.eqb_spec k0 k) as [->|Hne].
    + exfalso. apply Hnotin. change k with (fst (k, v)). now apply in_map.
    + now apply IH.
Qed.
End DictFacts.

(** ** Facts about the input resolver *)

Section ResolverFacts.
Variables inputs data : dict value.

Let missing (k : string) : bool := is_None (input_value inputs data k).
Let store (s : dict value) (k : string) : dict value :=
  PyDict.set s k (input_value inputs data k).

Lemma input_state_loop_spec names st :
  input_state_loop inputs data names st =
  match find missing names with
  | Some n => Raise (missing_input n)
  | None => Ok (fold_left store names st)
  end.
Proof.
  revert st. induction names as [|k names IH]; intros st; simpl.
  - reflexivity.
  - unfold missing at 1. destruct (is_None (input_value inputs data k)).
    + reflexivity.
    + apply IH.
Qed.

Lemma find_missing_first pre k post :
  (forall k', In k' pre -> input_value inputs data k' <> VNone) ->
  input_value inputs data k = VNone ->
  find missing (pre ++ k :: post) = Some k.
Proof.
  intros Hpre Hk. induction pre as [|a pre IH]; simpl.
  - unfold missing. now rewrite Hk.
  - unfold missing at 1.
    destruct (input_value inputs data a) eqn:Ha;
      try (apply IH; intros; apply Hpre; now right).
    exfalso. apply (Hpre a); [now left | exact Ha].
Qed.

Lemma find_missing_exists names k :
  In k names -> input_value inputs data k = VNone ->
  exists n, find missing names = Some n.
Proof.
  intros Hin Hk. destruct (find missing names) as [n|] eqn:Hf.
  - now exists n.
  - apply (find_none _ _ Hf) in Hin. unfold missing in Hin.
    rewrite Hk in Hin. discriminate.
Qed.

Lemma lookup_fold_store_notin names st k :
  ~ In k names ->
  PyDict.lookup (fold_left store names st) k = PyDict.lookup st k.
Proof.
  revert st. induction names as [|a names IH]; intros st Hnot; simpl.
  - reflexivity.
  - rewrite IH by (intros H; apply Hnot; now right).
    unfold store. rewrite PyDict_lookup_set.
    destruct (String.eqb_spec a k) as [->|]; [|reflexivity].
    exfalso. apply Hnot. now left.
Qed.

Lemma lookup_fold_store_in names st k :
  In k names ->
  PyDict.lookup (fold_left store names st) k = Some (input_value inputs data k).
Proof.
  revert st. induction names as [|a names IH]; intros st Hin; simpl.
  - contradiction.
  - destruct (in_dec string_dec k names) as [Hin'|Hnot].
    + now apply IH.
    + destruct Hin as [->|]; [|contradiction].
      rewrite lookup_fold_store_notin by assumption.
      unfold store. rewrite PyDict_lookup_set. now rewrite String.eqb_refl.
Qed.

Lemma set_app_fresh (pre d : dict value) k v :
  ~ In k (PyDict.keys pre) ->
  PyDict.set (pre ++ d) k v = pre ++ PyDict.set d k v.
Proof.
  induction pre as [|[k0 v0] pre IH]; simpl; intros Hnot.
  - reflexivity.
  - destruct (String.eqb_spec k0 k) as [->|Hne].
    + exfalso. apply Hnot. now left.
    + f_equal. apply IH. intros H. apply Hnot. now right.
Qed.

Lemma fold_store_keys (pre d : dict value) :
  PyDict.wf d ->
  (forall k, In k (PyDict.keys d) -> ~ In k (PyDict.keys pre)) ->
  fold_left store (PyDict.keys d) (pre ++ d) =
  pre ++ map (fun kv => (fst kv, input_value inputs data (fst kv))) d.
Proof.
  unfold PyDict.wf. revert pre.
  induction d as [|[k v] d IH]; intros pre Hwf Hfresh; simpl.
  - reflexivity.
  - inversion Hwf as [|? ? Hnotin Hwf']; subst.
    unfold store at 2. rewrite set_app_fresh by (apply Hfresh; now left).
    simpl. rewrite String.eqb_refl.
    change (pre ++ (k, input_value inputs data k) :: d)
      with (pre ++ [(k, input_value inputs data k)] ++ d).
    rewrite app_assoc. rewrite IH; [now rewrite <- app_assoc | assumption |].
    intros k' Hk'. unfold PyDict.keys. rewrite map_app, in_app_iff. simpl.
    intros [H|[H|[]]].
    + apply (Hfresh k'); [now right | exact H].
    + subst. contradiction.
Qed.

(** What the resolver returns: the error for the first missing input, or
    else the items of [inputs] with every value replaced by the value
    taken for its name. *)
Lemma resolver_raises n :
  first_missing inputs data = Some n ->
  _get_input_state_from_request inputs data = Raise (missing_input n).
Proof.
  unfold first_missing, _get_input_state_from_request, PyDict.copy.
  intros H. rewrite input_state_loop_spec. fold missing in H. now rewrite H.
Qed.

Lemma resolver_returns :
  first_missing inputs data = None ->
  _get_input_state_from_request inputs data =
  Ok (fold_left store (PyDict.keys inputs) inputs).
Proof.
  unfold first_missing, _get_input_state_from_request, PyDict.copy.
  intros H. rewrite input_state_loop_spec. fold missing in H. now rewrite H.
Qed.

Lemma resolver_Ok_inv out :
  _get_input_state_from_request inputs data = Ok out ->
  first_missing inputs data = None /\
  out = fold_left store (PyDict.keys inputs) inputs.
Proof.
  intros H. destruct (first_missing inputs data) as [n|] eqn:Hf.
  - rewrite (resolver_raises _ Hf) in H. discriminate.
  - rewrite (resolver_returns Hf) in H. now injection H as <-.
Qed.

Lemma resolver_Raise_inv e :
  _get_input_state_from_request inputs data = Raise e ->
  exists n, first_missing inputs data = Some n /\ e = missing_input n.
Proof.
  intros H. destruct (first_missing inputs data) as [n|] eqn:Hf.
  - rewrite (resolver_raises _ Hf) in H. injection H as <-. now exists n.
  - rewrite (resolver_returns Hf) in H. discriminate.
Qed.

Lemma first_missing_value n :
  first_missing inputs data = Some n ->
  In n (PyDict.keys inputs) /\ input_value inputs data n = VNone.
Proof.
  unfold first_missing. intros H. apply find_some in H as [Hin Hn].
  split; [assumption|]. now destruct (input_value inputs data n).
Qed.

Lemma resolver_wf_items out :
  PyDict.wf inputs ->
  _get_input_state_from_request inputs data = Ok out ->
  out = map (fun kv => (fst kv, input_value inputs data (fst kv))) inputs.
Proof.
  intros Hwf H. apply resolver_Ok_inv in H as [_ ->].
  apply (fold_store_keys []); [assumption | intros ? _ []].
Qed.
Lemma keys_fold_store names st :
  (forall k, In k names -> In k (PyDict.keys st)) ->
  PyDict.keys (fold_left store names st) = PyDict.keys st.
Proof.
  revert st. induction names as [|a names IH]; intros st Hin; simpl.
  - reflexivity.
  - assert (Ha : PyDict.keys (store st a) = PyDict.keys st)
      by (apply PyDict_keys_set_present, Hin; now left).
    rewrite IH, Ha; [reflexivity|].
    intros k Hk. rewrite Ha. apply Hin. now right.
Qed.

Lemma resolver_keys out :
  _get_input_state_from_request inputs data = Ok out ->
  PyDict.keys out = PyDict.keys inputs.
Proof.
  intros H. apply resolver_Ok_inv in H as [_ ->].
  apply keys_fold_store. auto.
Qed.

Lemma resolver_lookup out k :
  _get_input_state_from_request inputs data = Ok out ->
  In k (PyDict.keys inputs) ->
  PyDict.lookup out k = Some (input_value inputs data k).
Proof.
  intros H Hin. apply resolver_Ok_inv in H as [_ ->].
  now apply lookup_fold_store_in.
Qed.

Lemma resolver_Ok_complete out k :
  _get_input_state_from_request inputs data = Ok out ->
  In k (PyDict.keys inputs) ->
  input_value inputs data k <> VNone.
Proof.
  intros H Hin Hk. apply resolver_Ok_inv in H as [Hf _].
  unfold first_missing in Hf. apply (find_none _ _ Hf) in Hin.
  rewrite Hk in Hin. discriminate.
Qed.

Lemma resolver_first pre k post :
  PyDict.keys inputs = pre ++ k :: post ->
  (forall k', In k' pre -> input_value inputs data k' <> VNone) ->
  input_value inputs data k = VNone ->
  _get_input_state_from_request inputs data = Raise (missing_input k).
Proof.
  intros Hkeys Hpre Hk. apply resolver_raises.
  unfold first_missing. rewrite Hkeys. now apply find_missing_first.
Qed.

Lemma resolver_fails k :
  In k (PyDict.keys inputs) ->
  input_value inputs data k = VNone ->
  exists n, first_missing inputs data = Some n /\
            _get_input_state_from_request inputs data = Raise (missing_input n).
Proof.
  intros Hin Hk. destruct (@find_missing_exists (PyDict.keys inputs) k Hin Hk) as [n Hn].
  exists n. split; [exact Hn | now apply resolver_raises].
Qed.
End ResolverFacts.

Lemma PyDict_lookup_keys {V : Type} (d : dict V) k v :
  PyDict.lookup d k = Some v -> In k (PyDict.keys d).
Proof.
  intros H. apply PyDict_lookup_Some_In in H.
  change k with (fst (k, v)). now apply in_map.
Qed.

(** ** The input resolver: defaults, missing inputs, the resolved state *)

(** The resolver returns a state as soon as every declared input has a
    non-null value, and the state holds the value taken for each name. *)
Lemma resolver_returns_when_complete (inputs data : dict value) :
  (forall k, In k (PyDict.keys inputs) -> input_value inputs data k <> VNone) ->
  exists out,
    _get_input_state_from_request inputs data = Ok out /\
    forall k, In k (PyDict.keys inputs) ->
              PyDict.lookup out k = Some (input_value inputs data k).
Proof.
  intros Hall.
  destruct (_get_input_state_from_request inputs data) as [out|e] eqn:Hout.
  - exists out. split; [reflexivity|].
    intros k Hk. exact (resolver_lookup _ _ _ k Hout Hk).
  - apply resolver_Raise_inv in Hout as (n & Hn & _).
    apply first_missing_value in Hn as [Hin Hn].
    exfalso. exact (Hall n Hin Hn).
Qed.

(** C2: a declared input with a non-null default that the payload does not
    mention takes its declared default, and a supplied value takes
    precedence over the default. That is the value line 39 computes for
    the name. The resolver then either returns a state that holds that
    value under the name, or raises the error for another declared input,
    one whose value is null; it does return such a state when every other
    declared input has a non-null value. *)
Theorem default_input_resolution (inputs data : dict value) (name : string)
  (default : value) :
  PyDict.lookup inputs name = Some default ->
  default <> VNone ->
  (PyDict.lookup data name = None ->
     input_value inputs data name = default /\
     ((exists out,
         _get_input_state_from_request inputs data = Ok out /\
         PyDict.lookup out name = Some default) \/
      (exists n,
         n <> name /\ In n (PyDict.keys inputs) /\
         input_value inputs data n = VNone /\
         _get_input_state_from_request inputs data =
         Raise (HTTPException 400 ("input '" ++ n ++ "' is required")))) /\
     ((forall k, In k (PyDict.keys inputs) -> k <> name ->
                 input_value inputs data k <> VNone) ->
      exists out,
        _get_input_state_from_request inputs data = Ok out /\
        PyDict.lookup out name = Some default) /\
     (forall out, _get_input_state_from_request inputs data = Ok out ->
                  PyDict.lookup out name = Some default) /\
     (forall e, _get_input_state_from_request inputs data = Raise e ->
                exists n, e = missing_input n /\ n <> name)) /\
  (forall supplied, PyDict.lookup data name = Some supplied ->
     input_value inputs data name = supplied /\
     (supplied <> VNone ->
      (forall k, In k (PyDict.keys inputs) -> k <> name ->
                 input_value inputs data k <> VNone) ->
      exists out,
        _get_input_state_from_request inputs data = Ok out /\
        PyDict.lookup out name = Some supplied) /\
     (forall out, _get_input_state_from_request inputs data = Ok out ->
                  PyDict.lookup out name = Some supplied)).
Proof.
  intros Hdecl Hdef.
  pose proof (PyDict_lookup_keys _ _ _ Hdecl) as Hin.
  assert (Hcomplete : forall v,
             input_value inputs data name = v -> v <> VNone ->
             (forall k, In k (PyDict.keys inputs) -> k <> name ->
                        input_value inputs data k <> VNone) ->
             exists out,
               _get_input_state_from_request inputs data = Ok out /\
               PyDict.lookup out name = Some v).
  { intros v Hv Hne Hothers.
    destruct (resolver_returns_when_complete inputs data) as (out & Hout & Hval).
    - intros k Hk. destruct (string_dec k name) as [->|Hk'].
      + now rewrite Hv.
      + now apply Hothers.
    - exists out. split; [exact Hout|]. rewrite (Hval name Hin). now rewrite Hv. }
  split.
  - intros Hdata.
    assert (Hv : input_value inputs data name = default)
      by (unfold input_value, PyDict.get; now rewrite Hdata, Hdecl).
    assert (Hraise : forall e,
               _get_input_state_from_request inputs data = Raise e ->
               exists n, (e = missing_input n /\ n <> name) /\
                         In n (PyDict.keys inputs) /\
                         input_value inputs data n = VNone).
    { intros e He. apply resolver_Raise_inv in He as (n & Hn & ->).
      apply first_missing_value in Hn as [Hn_in Hn].
      exists n. repeat split; try assumption. intros ->. congruence. }
    assert (Hok : forall out,
               _get_input_state_from_request inputs data = Ok out ->
               PyDict.lookup out name = Some default).
    { intros out Hout. rewrite (resolver_lookup _ _ _ _ Hout Hin).
      now rewrite Hv. }
    split; [exact Hv|]. split; [|split; [|split]].
    + destruct (_get_input_state_from_request inputs data) as [out|e] eqn:Hres.
      * left. exists out. split; [reflexivity | now apply Hok].
      * right. destruct (Hraise e eq_refl) as (n & [-> Hne] & Hn_in & Hn).
        exists n. now repeat split.
    + now apply Hcomplete.
    + exact Hok.
    + intros e He. destruct (Hraise e He) as (n & H & _). now exists n.
  - intros supplied Hdata.
    assert (Hv : input_value inputs data name = supplied)
      by (unfold input_value, PyDict.get; now rewrite Hdata).
    split; [exact Hv|]. split.
    + intros Hne. now apply Hcomplete.
    + intros out Hout. rewrite (resolver_lookup _ _ _ _ Hout Hin).
      now rewrite Hv.
Qed.

(** With a default for every declared input and an empty payload the
    resolver returns the declared defaults. *)
Example default_input_resolution_world :
  _get_input_state_from_request [("name", VStr "world")] [] =
  Ok [("name", VStr "world")].
Proof. reflexivity. Qed.

Lemma default_input_resolution_witness :
  (exists out,
     _get_input_state_from_request
       [("name", VStr "world"); ("lang", VNone)] [("lang", VStr "en")] =
     Ok out /\
     PyDict.lookup out "name" = Some (VStr "world")) /\
  (exists out,
     _get_input_state_from_request
       [("name", VStr "world"); ("lang", VNone)]
       [("lang", VStr "en"); ("name", VStr "bob")] = Ok out /\
     PyDict.lookup out "name" = Some (VStr "bob")).
Proof.
  assert (Hne : VStr "world" <> VNone) by discriminate.
  split.
  - destruct (default_input_resolution
                [("name", VStr "world"); ("lang", VNone)]
                [("lang", VStr "en")] "name" (VStr "world") eq_refl Hne)
      as [H _].
    destruct (H eq_refl) as (_ & _ & Hreturns & _).
    apply Hreturns. intros k [<-|[<-|[]]] Hk.
    + now contradiction Hk.
    + vm_compute. discriminate.
  - destruct (default_input_resolution
                [("name", VStr "world"); ("lang", VNone)]
                [("lang", VStr "en"); ("name", VStr "bob")] "name"
                (VStr "world") eq_refl Hne) as [_ H].
    destruct (H (VStr "bob") eq_refl) as (_ & Hreturns & _).
    apply Hreturns; [discriminate|]. intros k [<-|[<-|[]]] Hk.
    + now contradiction Hk.
    + vm_compute. discriminate.
Defined.

(** The claim C3 as written fails when an input declared earlier is
    missing too: the error names the earlier input. *)
Lemma missing_required_input_names_first :
  ~ (forall (inputs data : dict value) (name : string),
       PyDict.lookup inputs name = Some VNone ->
       PyDict.lookup data name = None ->
       _get_input_state_from_request inputs data =
       Raise (HTTPException 400 ("input '" ++ name ++ "' is required"))).
Proof.
  intros H.
  specialize (H [("a", VNone); ("b", VNone)] [] "b" eq_refl eq_refl).
  vm_compute in H. discriminate H.
Qed.

(** C3 (amended): when a declared input without a default is left out of
    the payload, the resolver returns no state and raises the client error
    with status 400 whose message is [input '<n>' is required] for the
    first declared input [n], in declaration order, whose value is null;
    the message names the omitted input itself when every input declared
    before it has a non-null value. *)
Theorem missing_required_input (inputs data : dict value) (name : string) :
  PyDict.lookup inputs name = Some VNone ->
  PyDict.lookup data name = None ->
  (exists n,
     first_missing inputs data = Some n /\
     _get_input_state_from_request inputs data =
     Raise (HTTPException 400 ("input '" ++ n ++ "' is required"))) /\
  (forall pre post,
     PyDict.keys inputs = pre ++ name :: post ->
     (forall k, In k pre -> input_value inputs data k <> VNone) ->
     _get_input_state_from_request inputs data =
     Raise (HTTPException 400 ("input '" ++ name ++ "' is required"))) /\
  is_Ok (_get_input_state_from_request inputs data) = false.
Proof.
  intros Hdecl Hdata.
  assert (Hv : input_value inputs data name = VNone)
    by (unfold input_value, PyDict.get; now rewrite Hdata, Hdecl).
  pose proof (PyDict_lookup_keys _ _ _ Hdecl) as Hin.
  destruct (resolver_fails inputs data name Hin Hv) as (n & Hn & Hr).
  repeat split.
  - exists n. split; [exact Hn | exact Hr].
  - intros pre post Hkeys Hpre.
    exact (resolver_first inputs data pre name post Hkeys Hpre Hv).
  - now rewrite Hr.
Qed.

Lemma missing_required_input_witness :
  _get_input_state_from_request [("a", VStr "x"); ("b", VNone)] [] =
  Raise (HTTPException 400 "input 'b' is required").
Proof.
  destruct (missing_required_input [("a", VStr "x"); ("b", VNone)] [] "b"
              eq_refl eq_refl) as (_ & H & _).
  apply (H ["a"] [] eq_refl).
  intros k [<-|[]]. vm_compute. discriminate.
Defined.

(** Called with a payload that binds a declared name to null, the resolver
    takes the null and not the default: it returns no state and raises the
    error for the first declared input whose value is null. *)
Lemma null_value_shadows_default (inputs data : dict value) (name : string) :
  In name (PyDict.keys inputs) ->
  PyDict.lookup data name = Some VNone ->
  input_value inputs data name = VNone /\
  (exists n,
     first_missing inputs data = Some n /\
     _get_input_state_from_request inputs data =
     Raise (HTTPException 400 ("input '" ++ n ++ "' is required"))) /\
  (forall pre post,
     PyDict.keys inputs = pre ++ name :: post ->
     (forall k, In k pre -> input_value inputs data k <> VNone) ->
     _get_input_state_from_request inputs data =
     Raise (HTTPException 400 ("input '" ++ name ++ "' is required"))) /\
  is_Ok (_get_input_state_from_request inputs data) = false.
Proof.
  intros Hin Hdata.
  assert (Hv : input_value inputs data name = VNone)
    by (unfold input_value, PyDict.get; now rewrite Hdata).
  destruct (resolver_fails inputs data name Hin Hv) as (n & Hn & Hr).
  repeat split.
  - exact Hv.
  - exists n. split; [exact Hn | exact Hr].
  - intros pre post Hkeys Hpre.
    exact (resolver_first inputs data pre name post Hkeys Hpre Hv).
  - now rewrite Hr.
Qed.

(** C7: a resolved input state has exactly the declared names as its keys,
    in the declared order, holds no null value, and holds nothing under a
    name that is not declared, whatever else the payload carries. *)
Theorem resolved_input_state_invariant (inputs data out : dict value) :
  PyDict.wf inputs ->
  _get_input_state_from_request inputs data = Ok out ->
  PyDict.keys out = PyDict.keys inputs /\
  Forall (fun v => v <> VNone) (PyDict.values out) /\
  (forall k, In k (PyDict.keys data) -> ~ In k (PyDict.keys inputs) ->
             PyDict.contains out k = false) /\
  out = map (fun kv => (fst kv, input_value inputs data (fst kv))) inputs.
Proof.
  intros Hwf Hout.
  pose proof (resolver_keys inputs data out Hout) as Hkeys.
  pose proof (resolver_wf_items inputs data out Hwf Hout) as Hitems.
  repeat split.
  - exact Hkeys.
  - rewrite Hitems. unfold PyDict.values. rewrite map_map. simpl.
    apply Forall_forall. intros v Hv. apply in_map_iff in Hv as ([k d] & <- & Hkd).
    simpl. apply (resolver_Ok_complete inputs data out k Hout).
    change k with (fst (k, d)). now apply in_map.
  - intros k _ Hnot. unfold PyDict.contains.
    rewrite <- Hkeys in Hnot. apply PyDict_lookup_None in Hnot. now rewrite Hnot.
  - exact Hitems.
Qed.

Lemma resolved_input_state_invariant_witness :
  PyDict.keys [("name", VStr "bob"); ("lang", VStr "en")] = ["name"; "lang"] /\
  PyDict.contains [("name", VStr "bob"); ("lang", VStr "en")] "extra" = false.
Proof.
  assert (Hwf : PyDict.wf [("name", VNone); ("lang", VStr "en")]).
  { unfold PyDict.wf. simpl. repeat constructor; simpl.
    - intros [H|[]]. discriminate H.
    - intros []. }
  destruct (resolved_input_state_invariant
              [("name", VNone); ("lang", VStr "en")]
              [("extra", VStr "x"); ("name", VStr "bob")]
              [("name", VStr "bob"); ("lang", VStr "en")] Hwf eq_refl)
    as (Hk & _ & Hextra & _).
  split; [exact Hk|].
  apply Hextra; simpl.
  - now left.
  - intros [H|[H|[]]]; discriminate H.
Defined.

(** ** The request handlers *)

Section HandlerFacts.
Context {W : Collaborators}.
Variables (input_path : Path) (generator conversation_strategy : string)
  (max_steps : Z) (max_cost : float) (timeout : option Z) (quiet : bool)
  (inputs : dict value).

Let on_request : dict value -> Request -> result value :=
  _create_agent_call_endpoint input_path generator conversation_strategy
    max_steps max_cost timeout quiet inputs.
Let run : dict value -> result (dict value) :=
  Runner_run input_path generator conversation_strategy max_steps max_cost
    timeout quiet.

(** The handler, once the input state is resolved and the Runner has
    returned. *)
Lemma agent_on_request_run data request input_state output_state :
  _get_input_state_from_request inputs data = Ok input_state ->
  run input_state = Ok output_state ->
  on_request data request =
  if raw_requested request then Ok (VDict output_state)
  else PyDict.getitem output_state "output".
Proof.
  intros Hin Hrun. unfold on_request, _create_agent_call_endpoint.
  rewrite Hin. simpl. unfold run in Hrun. rewrite Hrun. reflexivity.
Qed.

Lemma agent_on_request_Ok_inv data request resp :
  on_request data request = Ok resp ->
  exists input_state output_state,
    _get_input_state_from_request inputs data = Ok input_state /\
    run input_state = Ok output_state.
Proof.
  unfold on_request, _create_agent_call_endpoint, run.
  destruct (_get_input_state_from_request inputs data) as [st|e]; simpl;
    [|discriminate].
  destruct (Runner_run _ _ _ _ _ _ _ st) as [out|e] eqn:Hrun; simpl;
    [|discriminate].
  intros _. exists st, out. split; [reflexivity | exact Hrun].
Qed.

(** What the handler returns, when it returns: the whole output state of
    the Runner when the query parameter [full], put in lower case, is
    [true], and otherwise the value under the key [output] of that
    state. *)
Lemma agent_handler_shape data request resp :
  on_request data request = Ok resp ->
  exists input_state output_state,
    _get_input_state_from_request inputs data = Ok input_state /\
    run input_state = Ok output_state /\
    (lower (PyDict.get (query_params request) "full" "false") = "true" ->
     resp = VDict output_state) /\
    (lower (PyDict.get (query_params request) "full" "false") <> "true" ->
     PyDict.lookup output_state "output" = Some resp) /\
    (PyDict.lookup (query_params request) "full" = Some "true" ->
     resp = VDict output_state) /\
    (PyDict.lookup (query_params request) "full" = None ->
     PyDict.lookup output_state "output" = Some resp).
Proof.
  intros Hresp.
  destruct (agent_on_request_Ok_inv _ _ _ Hresp) as (st & out & Hst & Hout).
  exists st, out. split; [exact Hst|]. split; [exact Hout|].
  rewrite (agent_on_request_run _ _ _ _ Hst Hout) in Hresp.
  unfold raw_requested, PyDict.getitem in Hresp.
  assert (Hraw : lower (PyDict.get (query_params request) "full" "false")
                 = "true" -> resp = VDict out).
  { intros E. rewrite E in Hresp. simpl in Hresp. now injection Hresp as <-. }
  assert (Hout' : lower (PyDict.get (query_params request) "full" "false")
                  <> "true" -> PyDict.lookup out "output" = Some resp).
  { intros E. apply String.eqb_neq in E. rewrite E in Hresp.
    destruct (PyDict.lookup out "output"); [|discriminate].
    now injection Hresp as <-. }
  repeat split; try assumption.
  - intros E. apply Hraw. unfold PyDict.get. now rewrite E.
  - intros E. apply Hout'. unfold PyDict.get. rewrite E. discriminate.
Qed.

(** C10 (amended): when the query parameter [full], put in lower case,
    is not [true], the handler indexes the output state of the Runner at
    [output]: it returns the value there when the key is present, and
    raises [KeyError] when the key is absent. *)
Theorem output_key_access data request input_state output_state :
  _get_input_state_from_request inputs data = Ok input_state ->
  run input_state = Ok output_state ->
  lower (PyDict.get (query_params request) "full" "false") <> "true" ->
  on_request data request = PyDict.getitem output_state "output" /\
  (forall v, PyDict.lookup output_state "output" = Some v ->
             on_request data request = Ok v) /\
  (PyDict.contains output_state "output" = false ->
   on_request data request = Raise (KeyError "output")).
Proof.
  intros Hst Hout Hfull.
  rewrite (agent_on_request_run _ _ _ _ Hst Hout).
  unfold raw_requested. apply String.eqb_neq in Hfull. rewrite Hfull.
  unfold PyDict.getitem, PyDict.contains. repeat split.
  - intros v ->. reflexivity.
  - destruct (PyDict.lookup output_state "output"); [discriminate|reflexivity].
Qed.

(** Called with a dict, the handler of a tool calls the tool with the
    entries of the dict as they are, and with no argument when there is no
    dict or an empty one; it returns the value of the call wrapped under
    the key [result], and an exception of the tool goes through. *)
Lemma tool_handler_forwards (tool : Tool) (request : Request) :
  endpoint (tool_route tool) = ToolEndpoint (_create_tool_call_endpoint tool) /\
  (forall kwargs,
     _create_tool_call_endpoint tool (Some kwargs) request =
     match tool_call tool kwargs with
     | Ok v => Ok (VDict [("result", v)])
     | Raise e => Raise e
     end) /\
  _create_tool_call_endpoint tool None request =
  match tool_call tool [] with
  | Ok v => Ok (VDict [("result", v)])
  | Raise e => Raise e
  end.
Proof.
  repeat split.
  intros kwargs. unfold _create_tool_call_endpoint, result_bind.
  now destruct kwargs.
Qed.
End HandlerFacts.

(** The claim C10 as written fails for [full=True]: the value is not
    [true], the output state lacks the key [output], and the handler
    returns the whole state instead of raising. *)
Lemma output_key_access_full_capitalised :
  ~ (forall (W : Collaborators) (input_path : Path)
       (generator conversation_strategy : string) (max_steps : Z)
       (max_cost : float) (timeout : option Z) (quiet : bool)
       (inputs data : dict value) (request : Request)
       (input_state output_state : dict value),
       _get_input_state_from_request inputs data = Ok input_state ->
       Runner_run input_path generator conversation_strategy max_steps
         max_cost timeout quiet input_state = Ok output_state ->
       PyDict.get (query_params request) "full" "false" <> "true" ->
       PyDict.contains output_state "output" = false ->
       is_Ok (_create_agent_call_endpoint input_path generator
                conversation_strategy max_steps max_cost timeout quiet inputs
                data request) = false).
Proof.
  intros H.
  assert (Hfull : PyDict.get (query_params (request_full "True")) "full" "false"
                  <> "true") by (vm_compute; discriminate).
  specialize (H (demo_world (demo_config None []) run_without_output
                   (Ok demo_runtime))
                "agent.yml" "gen" "chat" 0%Z 0%Z None false [] []
                (request_full "True") [] [("steps", VInt 3)]
                eq_refl eq_refl Hfull eq_refl).
  vm_compute in H. discriminate H.
Qed.

Lemma output_key_access_witness :
  let W := demo_world (demo_config None []) run_without_output
             (Ok demo_runtime) in
  PyDict.contains [("steps", VInt 3)] "output" = false /\
  _create_agent_call_endpoint (W := W) "agent.yml" "gen" "chat" 0%Z 0%Z None
    false [] [] (request_full "no") = Raise (KeyError "output").
Proof.
  intros W. split; [reflexivity|].
  assert (Hfull : lower (PyDict.get (query_params (request_full "no")) "full"
                           "false") <> "true") by (vm_compute; discriminate).
  destruct (output_key_access (W := W) "agent.yml" "gen" "chat" 0%Z 0%Z None
              false [] [] (request_full "no") [] [("steps", VInt 3)]
              eq_refl eq_refl Hfull) as (_ & _ & Hraise).
  apply Hraise. reflexivity.
Defined.

(** ** The routes, as they answer a POST *)

Lemma str_values_lookup (data : dict value) (name : string) (v : value) :
  PyDict.lookup data name = Some v -> is_str v = false ->
  str_values data = false.
Proof.
  intros Hlook Hv. apply PyDict_lookup_Some_In in Hlook.
  unfold str_values. destruct (forallb _ data) eqn:E; [|reflexivity].
  rewrite forallb_forall in E. specialize (E _ Hlook). simpl in E.
  congruence.
Qed.

Section RouteFacts.
Context {W : Collaborators}.
Variables (input_path : Path) (generator conversation_strategy : string)
  (max_steps : Z) (max_cost : float) (timeout : option Z) (quiet : bool)
  (inputs : dict value) (config : Configuration).

Let on_request : dict value -> Request -> result value :=
  _create_agent_call_endpoint input_path generator conversation_strategy
    max_steps max_cost timeout quiet inputs.
Let run : dict value -> result (dict value) :=
  Runner_run input_path generator conversation_strategy max_steps max_cost
    timeout quiet.
Let agent_post (body : option value) (request : Request) : result value :=
  route_post
    (agent_route input_path generator conversation_strategy max_steps
       max_cost timeout quiet inputs config)
    body request.

Lemma agent_post_dict data request :
  str_values data = true ->
  agent_post (Some (VDict data)) request =
  match on_request data request with
  | Ok v => if validates DictModel v then Ok v else Raise ResponseValidationError
  | Raise e => Raise e
  end.
Proof.
  intros Hstr. unfold agent_post, route_post, read_body. simpl.
  now rewrite Hstr.
Qed.

Lemma agent_post_refused data request :
  str_values data = false ->
  agent_post (Some (VDict data)) request = Raise RequestValidationError.
Proof.
  intros Hstr. unfold agent_post, route_post, read_body. simpl.
  now rewrite Hstr.
Qed.

(** C4 (amended): a POST to the agent route that is answered is answered
    with the whole output state of the Runner when the query parameter
    [full], put in lower case, is [true], and otherwise, the parameter
    being absent or of another value, with the value under the key
    [output] of that state. Both answers are given: for a body that
    resolves and a Runner that returns, the route returns the whole state
    when it is asked for, and the dict under [output] when it is not. *)
Theorem agent_response_shape (data : dict value) (request : Request) :
  (forall resp,
     agent_post (Some (VDict data)) request = Ok resp ->
     exists input_state output_state,
       _get_input_state_from_request inputs data = Ok input_state /\
       run input_state = Ok output_state /\
       (lower (PyDict.get (query_params request) "full" "false") = "true" ->
        resp = VDict output_state) /\
       (lower (PyDict.get (query_params request) "full" "false") <> "true" ->
        PyDict.lookup output_state "output" = Some resp) /\
       (PyDict.lookup (query_params request) "full" = Some "true" ->
        resp = VDict output_state) /\
       (PyDict.lookup (query_params request) "full" = None ->
        PyDict.lookup output_state "output" = Some resp)) /\
  (forall input_state output_state,
     str_values data = true ->
     _get_input_state_from_request inputs data = Ok input_state ->
     run input_state = Ok output_state ->
     (lower (PyDict.get (query_params request) "full" "false") = "true" ->
      agent_post (Some (VDict data)) request = Ok (VDict output_state)) /\
     (forall v,
        lower (PyDict.get (query_params request) "full" "false") <> "true" ->
        PyDict.lookup output_state "output" = Some (VDict v) ->
        agent_post (Some (VDict data)) request = Ok (VDict v))).
Proof.
  split.
  - intros resp Hresp.
    destruct (str_values data) eqn:Hstr;
      [|rewrite (agent_post_refused _ _ Hstr) in Hresp; discriminate].
    rewrite (agent_post_dict _ _ Hstr) in Hresp.
    destruct (on_request data request) as [v|e] eqn:Hv; [|discriminate].
    destruct (validates DictModel v); [|discriminate].
    injection Hresp as <-.
    exact (agent_handler_shape input_path generator conversation_strategy
             max_steps max_cost timeout quiet inputs data request v Hv).
  - intros st out Hstr Hst Hout.
    rewrite (agent_post_dict _ _ Hstr). unfold on_request.
    rewrite (agent_on_request_run input_path generator conversation_strategy
               max_steps max_cost timeout quiet inputs data request st out
               Hst Hout).
    unfold raw_requested, PyDict.getitem. split.
    + intros ->. reflexivity.
    + intros v Hfull Hv. apply String.eqb_neq in Hfull.
      now rewrite Hfull, Hv.
Qed.

(** C6 (amended): a POST to the route of a tool with a JSON object whose
    values are all strings calls the tool with exactly these named
    arguments and returns the value of the call wrapped under the key
    [result]; an absent or empty body calls the tool with no argument; an
    exception of the tool goes through. An object that holds a value that
    is not a string is refused by the validation of the request and the
    tool is not called. Nothing else is validated: the handler, given a
    dict, forwards it as it is. *)
Theorem tool_invocation (tool : Tool) (request : Request) :
  endpoint (tool_route tool) = ToolEndpoint (_create_tool_call_endpoint tool) /\
  (forall kwargs,
     str_values kwargs = true ->
     route_post (tool_route tool) (Some (VDict kwargs)) request =
     match tool_call tool kwargs with
     | Ok v => Ok (VDict [("result", v)])
     | Raise e => Raise e
     end) /\
  route_post (tool_route tool) None request =
  match tool_call tool [] with
  | Ok v => Ok (VDict [("result", v)])
  | Raise e => Raise e
  end /\
  route_post (tool_route tool) (Some (VDict [])) request =
  route_post (tool_route tool) None request /\
  (forall kwargs,
     str_values kwargs = false ->
     route_post (tool_route tool) (Some (VDict kwargs)) request =
     Raise RequestValidationError) /\
  (forall kwargs,
     _create_tool_call_endpoint tool (Some kwargs) request =
     match tool_call tool kwargs with
     | Ok v => Ok (VDict [("result", v)])
     | Raise e => Raise e
     end).
Proof.
  split; [reflexivity|]. split; [|split; [|split; [|split]]].
  - intros kwargs Hstr. unfold route_post, read_body. simpl. rewrite Hstr.
    unfold _create_tool_call_endpoint, result_bind.
    destruct kwargs; simpl; destruct (tool_call tool _); reflexivity.
  - unfold route_post, read_body. simpl.
    unfold _create_tool_call_endpoint, result_bind. simpl.
    destruct (tool_call tool []); reflexivity.
  - reflexivity.
  - intros kwargs Hstr. unfold route_post, read_body. simpl.
    now rewrite Hstr.
  - intros kwargs.
    apply (proj1 (proj2 (tool_handler_forwards tool request))).
Qed.

(** C9 (amended): a body that binds a name to null is refused by the
    validation of the request, before the inputs are resolved and
    whatever the default of the name is. Called with such a payload, the
    resolver takes the null and not the default of a declared name: it
    returns no state and raises the error [input '<n>' is required] with
    status 400 for the first declared input [n] whose value is null, which
    is the null input itself when every input declared before it has a
    non-null value. *)
Theorem null_supplied_input (data : dict value) (name : string)
  (request : Request) :
  PyDict.lookup data name = Some VNone ->
  agent_post (Some (VDict data)) request = Raise RequestValidationError /\
  (In name (PyDict.keys inputs) ->
   input_value inputs data name = VNone /\
   (exists n,
      first_missing inputs data = Some n /\
      _get_input_state_from_request inputs data =
      Raise (HTTPException 400 ("input '" ++ n ++ "' is required"))) /\
   (forall pre post,
      PyDict.keys inputs = pre ++ name :: post ->
      (forall k, In k pre -> input_value inputs data k <> VNone) ->
      _get_input_state_from_request inputs data =
      Raise (HTTPException 400 ("input '" ++ name ++ "' is required"))) /\
   is_Ok (_get_input_state_from_request inputs data) = false).
Proof.
  intros Hnull. split.
  - apply agent_post_refused. now apply (str_values_lookup data name VNone).
  - intros Hin. now apply null_value_shadows_default.
Qed.

(** X18: when the whole state is not asked for, the agent route answers
    only if the value under [output] is a dict: for any other value, a
    string for one, the value that the handler returns does not pass the
    response model [dict] of the route and the POST ends in
    [ResponseValidationError]. The whole state, when asked for, always
    passes. *)
Theorem output_value_validated (data input_state output_state : dict value)
  (request : Request) (v : value) :
  str_values data = true ->
  _get_input_state_from_request inputs data = Ok input_state ->
  run input_state = Ok output_state ->
  PyDict.lookup output_state "output" = Some v ->
  agent_post (Some (VDict data)) request =
  if raw_requested request then Ok (VDict output_state)
  else if validates DictModel v then Ok v
  else Raise ResponseValidationError.
Proof.
  intros Hstr Hst Hout Hv.
  rewrite (agent_post_dict _ _ Hstr). unfold on_request.
  rewrite (agent_on_request_run input_path generator conversation_strategy
             max_steps max_cost timeout quiet inputs data request
             input_state output_state Hst Hout).
  destruct (raw_requested request); [reflexivity|].
  unfold PyDict.getitem. now rewrite Hv.
Qed.
End RouteFacts.

(** The claim C4 as written fails for [full=TRUE]: the value is not
    [true], yet the route answers with the whole output state, because the
    comparison is made on the value in lower case. *)
Lemma agent_response_shape_full_uppercase :
  ~ (forall (W : Collaborators) (input_path : Path)
       (generator conversation_strategy : string) (max_steps : Z)
       (max_cost : float) (timeout : option Z) (quiet : bool)
       (inputs : dict value) (config : Configuration) (data : dict value)
       (request : Request) (resp : value),
       route_post
         (agent_route input_path generator conversation_strategy max_steps
            max_cost timeout quiet inputs config)
         (Some (VDict data)) request = Ok resp ->
       exists input_state output_state,
         _get_input_state_from_request inputs data = Ok input_state /\
         Runner_run input_path generator conversation_strategy max_steps
           max_cost timeout quiet input_state = Ok output_state /\
         (PyDict.get (query_params request) "full" "false" = "true" ->
          resp = VDict output_state) /\
         (PyDict.get (query_params request) "full" "false" <> "true" ->
          PyDict.lookup output_state "output" = Some resp)).
Proof.
  intros H.
  destruct (H (demo_world (demo_config None []) run_with_output (Ok demo_runtime))
              "agent.yml" "gen" "chat" 0%Z 0%Z None false []
              (demo_config None []) [] (request_full "TRUE")
              (VDict [("output", VStr "hi"); ("steps", VInt 3)]) eq_refl)
    as (st & out & _ & Hout & _ & Hne).
  vm_compute in Hout. injection Hout as <-.
  assert (Hfull : PyDict.get (query_params (request_full "TRUE")) "full" "false"
                  <> "true") by (vm_compute; discriminate).
  specialize (Hne Hfull). vm_compute in Hne. discriminate Hne.
Qed.

Lemma agent_response_shape_witness :
  let config := demo_config (Some "You are helpful.") [("name", VStr "world")] in
  let W := demo_world config run_with_dict_output (Ok demo_runtime) in
  let route :=
    agent_route (W := W) "agent.yml" "gen" "chat" 0%Z 0%Z None false
      [("name", VStr "world")] config in
  route_post route (Some (VDict [("name", VStr "bob")])) (request_full "true") =
  Ok (VDict [("output", VDict [("text", VStr "hi")]); ("steps", VInt 3)]) /\
  route_post route (Some (VDict [("name", VStr "bob")])) request_plain =
  Ok (VDict [("text", VStr "hi")]).
Proof.
  intros config W route. split.
  - destruct (agent_response_shape (W := W) "agent.yml" "gen" "chat" 0%Z 0%Z
                None false [("name", VStr "world")] config
                [("name", VStr "bob")] (request_full "true")) as [_ H].
    destruct (H [("name", VStr "bob")]
                [("output", VDict [("text", VStr "hi")]); ("steps", VInt 3)]
                eq_refl eq_refl eq_refl) as [Hfull _].
    apply Hfull. reflexivity.
  - destruct (agent_response_shape (W := W) "agent.yml" "gen" "chat" 0%Z 0%Z
                None false [("name", VStr "world")] config
                [("name", VStr "bob")] request_plain) as [_ H].
    destruct (H [("name", VStr "bob")]
                [("output", VDict [("text", VStr "hi")]); ("steps", VInt 3)]
                eq_refl eq_refl eq_refl) as [_ Hout].
    apply Hout; [vm_compute; discriminate | reflexivity].
Defined.

(** The claim C6 as written fails for a body that holds a value that is
    not a string: the route refuses it and the tool is not called. *)
Lemma tool_invocation_non_string_body :
  ~ (forall (tool : Tool) (kwargs : dict value) (request : Request),
       route_post (tool_route tool) (Some (VDict kwargs)) request =
       match tool_call tool kwargs with
       | Ok v => Ok (VDict [("result", v)])
       | Raise e => Raise e
       end).
Proof.
  intros H. specialize (H echo_tool [("n", VInt 3)] request_plain).
  vm_compute in H. discriminate H.
Qed.

(** A body of strings reaches the tool as it is. *)
Example tool_invocation_echo :
  route_post (tool_route echo_tool) (Some (VDict [("text", VStr "hi")]))
    request_plain =
  Ok (VDict [("result", VDict [("text", VStr "hi")])]).
Proof. reflexivity. Qed.

(** The claim C9 as written fails over the route: the body that binds the
    declared name to null is refused by the validation of the request, and
    the error of the resolver is never raised. *)
Lemma null_supplied_input_refused_first :
  ~ (forall (W : Collaborators) (input_path : Path)
       (generator conversation_strategy : string) (max_steps : Z)
       (max_cost : float) (timeout : option Z) (quiet : bool)
       (inputs : dict value) (config : Configuration) (data : dict value)
       (name : string) (request : Request),
       In name (PyDict.keys inputs) ->
       PyDict.lookup data name = Some VNone ->
       route_post
         (agent_route input_path generator conversation_strategy max_steps
            max_cost timeout quiet inputs config)
         (Some (VDict data)) request =
       Raise (HTTPException 400 ("input '" ++ name ++ "' is required"))).
Proof.
  intros H.
  specialize (H (demo_world (demo_config None []) run_with_output
                   (Ok demo_runtime))
                "agent.yml" "gen" "chat" 0%Z 0%Z None false
                [("name", VStr "world")] (demo_config None [])
                [("name", VNone)] "name" request_plain
                (or_introl eq_refl) eq_refl).
  vm_compute in H. discriminate H.
Qed.

Lemma null_supplied_input_witness :
  let config := demo_config None [("name", VStr "world")] in
  let W := demo_world config run_with_output (Ok demo_runtime) in
  route_post
    (agent_route (W := W) "agent.yml" "gen" "chat" 0%Z 0%Z None false
       [("name", VStr "world")] config)
    (Some (VDict [("name", VNone)])) request_plain =
  Raise RequestValidationError /\
  _get_input_state_from_request [("name", VStr "world")] [("name", VNone)] =
  Raise (HTTPException 400 "input 'name' is required").
Proof.
  intros config W.
  destruct (null_supplied_input (W := W) "agent.yml" "gen" "chat" 0%Z 0%Z
              None false [("name", VStr "world")] config [("name", VNone)]
              "name" request_plain eq_refl) as [Hroute Hdirect].
  split; [exact Hroute|].
  destruct (Hdirect (or_introl eq_refl)) as (_ & _ & H & _).
  apply (H [] [] eq_refl). intros k [].
Defined.

Lemma output_value_validated_witness :
  let config := demo_config None [] in
  let W := demo_world config run_with_output (Ok demo_runtime) in
  route_post
    (agent_route (W := W) "agent.yml" "gen" "chat" 0%Z 0%Z None false []
       config)
    (Some (VDict [])) request_plain = Raise ResponseValidationError.
Proof.
  intros config W.
  exact (output_value_validated (W := W) "agent.yml" "gen" "chat" 0%Z 0%Z
           None false [] config [] [] [("output", VStr "hi"); ("steps", VInt 3)]
           request_plain (VStr "hi") eq_refl eq_refl eq_refl eq_refl).
Defined.

(** ** The route table and the start-up routine *)

Section ServeFacts.
Context {W : Collaborators}.
Variables (input_path : Path) (host : string) (port : Z)
  (debug mcp mcp_sse serve_tools tools_only : bool)
  (generator conversation_strategy : string) (max_steps : Z)
  (max_cost : float) (timeout : option Z) (quiet : bool).
(** What [_get_agent_with_inputs] returned. *)
Variables (resolved_input_path : Path) (agent_name : string)
  (config : Configuration) (inputs : dict value).

Let working_dir : Path :=
  if path_is_dir resolved_input_path then resolved_input_path
  else path_parent resolved_input_path.
Let the_agent_route : Route :=
  agent_route resolved_input_path generator conversation_strategy max_steps
    max_cost timeout quiet inputs config.
Let rest_app (runtime : option Runtime) (st to : bool) : FastAPI :=
  _get_rest_api_app resolved_input_path generator conversation_strategy
    max_steps max_cost timeout quiet inputs config runtime st to.
Let served (runtime : option Runtime) (st to : bool) : list event :=
  served_events host port debug mcp mcp_sse generator conversation_strategy
    max_steps max_cost timeout quiet resolved_input_path agent_name config
    inputs runtime st to.
Let outcome (runtime : option Runtime) (st to : bool) : result unit :=
  served_result host port debug mcp mcp_sse generator conversation_strategy
    max_steps max_cost timeout quiet resolved_input_path agent_name config
    inputs runtime st to.
Let serve : M unit :=
  _serve input_path host port debug mcp mcp_sse serve_tools tools_only
    generator conversation_strategy max_steps max_cost timeout quiet.

Lemma fold_add_tool_routes (ts : list Tool) (app : FastAPI) :
  fold_left (fun app tool => add_api_route app (tool_route tool)) ts app =
  {| routes := routes app ++ map tool_route ts |}.
Proof.
  revert app. induction ts as [|tool ts IH]; intros [rs]; simpl.
  - now rewrite app_nil_r.
  - rewrite IH. simpl. now rewrite <- app_assoc.
Qed.

Lemma rest_app_routes runtime st to :
  routes (rest_app runtime st to) =
  (if negb to then [the_agent_route] else []) ++
  (if st then match runtime with
              | Some rt => map tool_route (tools rt)
              | None => []
              end
   else []).
Proof.
  unfold rest_app, _get_rest_api_app.
  destruct to, st, runtime as [rt|]; simpl;
    rewrite ?fold_add_tool_routes; reflexivity.
Qed.

Lemma resolve_mode_tools_only :
  tools_only = true \/
  (truthy_str (system_prompt config) = false /\
   truthy_str (agent config) = false /\
   truthy_str (task config) = false) ->
  resolve_mode serve_tools tools_only config = (true, true).
Proof.
  unfold resolve_mode. intros [->|(-> & -> & ->)].
  - reflexivity.
  - now rewrite orb_true_r.
Qed.

Lemma resolve_mode_agent st to :
  resolve_mode serve_tools tools_only config = (st, to) ->
  to = false -> st = serve_tools /\ tools_only = false.
Proof.
  unfold resolve_mode.
  destruct (tools_only || _) eqn:E.
  - intros [= <- <-]. discriminate.
  - apply orb_false_elim in E as [-> _].
    destruct serve_tools; intros [= <- <-]; auto.
Qed.

Hypothesis loaded :
  _get_agent_with_inputs input_path =
  Ok (resolved_input_path, agent_name, config, inputs).

Lemma serve_agent_only to :
  resolve_mode serve_tools tools_only config = (false, to) ->
  serve = (served None false to, outcome None false to).
Proof.
  intros Hmode.
  unfold serve, _serve, served, served_events, outcome, served_result.
  rewrite loaded. simpl. rewrite Hmode. simpl.
  destruct mcp, mcp_sse; reflexivity.
Qed.

Lemma serve_tools_built to rt :
  resolve_mode serve_tools tools_only config = (true, to) ->
  Runtime_build working_dir agent_name config debug = Ok rt ->
  serve = (EvRuntimeBuild working_dir agent_name config debug ::
           served (Some rt) true to, outcome (Some rt) true to).
Proof.
  intros Hmode Hbuild.
  unfold serve, _serve, served, served_events, outcome, served_result.
  rewrite loaded. simpl.
  rewrite Hmode. simpl. fold working_dir. rewrite Hbuild. simpl.
  destruct mcp, mcp_sse; reflexivity.
Qed.

Lemma serve_tools_failed to e :
  resolve_mode serve_tools tools_only config = (true, to) ->
  Runtime_build working_dir agent_name config debug = Raise e ->
  serve = ([EvRuntimeBuild working_dir agent_name config debug], Raise e).
Proof.
  intros Hmode Hbuild. unfold serve, _serve. rewrite loaded. simpl.
  rewrite Hmode. simpl. fold working_dir. rewrite Hbuild. reflexivity.
Qed.

Lemma served_no_runtime_build runtime st to :
  existsb is_runtime_build (served runtime st to) = false.
Proof.
  unfold served, served_events.
  destruct (mcp || mcp_sse), mcp_sse; reflexivity.
Qed.

Lemma served_rest_app_served runtime st to :
  served_rest_app (served runtime st to) =
  if mcp || mcp_sse then None else Some (rest_app runtime st to).
Proof.
  unfold served, served_events.
  destruct (mcp || mcp_sse), mcp_sse; reflexivity.
Qed.
Lemma served_shape runtime st to :
  exists ev, served runtime st to = [EvRouteTable runtime st to; ev] /\
             is_runtime_build ev = false /\ is_route_table ev = false.
Proof.
  unfold served, served_events.
  destruct (mcp || mcp_sse), mcp_sse; eexists; repeat split.
Qed.

Lemma served_rest_app_after_build runtime st to :
  served_rest_app
    (EvRuntimeBuild working_dir agent_name config debug :: served runtime st to) =
  served_rest_app (served runtime st to).
Proof. reflexivity. Qed.

Lemma resolve_mode_no_tools to :
  resolve_mode serve_tools tools_only config = (false, to) -> to = false.
Proof.
  unfold resolve_mode. destruct (tools_only || _) eqn:E.
  - discriminate.
  - apply orb_false_elim in E as [-> _].
    destruct serve_tools; intros [= <-]; reflexivity.
Qed.

(** C1: when [tools_only] is set, or the configuration has no system
    prompt, no agent directive and no task directive, the resolved mode
    is tools-only whatever [serve_tools] was: [serve_tools] becomes
    true, and every route of the route table built in that mode is the
    route of a tool, none is the agent route; so it is for the REST
    application that [_serve] then serves, whose routes are those of the
    tools of the runtime. *)
Theorem tools_only_mode_resolution :
  tools_only = true \/
  (system_prompt config = None /\ agent config = None /\
   task config = None) ->
  resolve_mode serve_tools tools_only config = (true, true) /\
  (forall runtime r,
     In r (routes (rest_app runtime true true)) ->
     is_agent_route r = false /\
     exists rt tool, runtime = Some rt /\ In tool (tools rt) /\
                     r = tool_route tool) /\
  (forall app,
     served_rest_app (fst serve) = Some app ->
     exists rt,
       Runtime_build working_dir agent_name config debug = Ok rt /\
       routes app = map tool_route (tools rt) /\
       forallb (fun r => negb (is_agent_route r)) (routes app) = true) /\
  (mcp || mcp_sse = false ->
   forall rt,
     Runtime_build working_dir agent_name config debug = Ok rt ->
     served_rest_app (fst serve) = Some (rest_app (Some rt) true true)).
Proof.
  intros Hcond.
  assert (Hmode : resolve_mode serve_tools tools_only config = (true, true)).
  { apply resolve_mode_tools_only.
    destruct Hcond as [H|(H1 & H2 & H3)]; [now left | right].
    now rewrite H1, H2, H3. }
  assert (Hroutes : forall rt,
             routes (rest_app (Some rt) true true) = map tool_route (tools rt))
    by (intros rt; now rewrite rest_app_routes).
  split; [exact Hmode|]. split; [|split].
  - intros runtime r Hr. rewrite rest_app_routes in Hr. simpl in Hr.
    destruct runtime as [rt|]; [|contradiction].
    apply in_map_iff in Hr as (tool & <- & Htool).
    split; [reflexivity|]. now exists rt, tool.
  - intros app Happ.
    destruct (Runtime_build working_dir agent_name config debug)
      as [rt|e] eqn:Hbuild.
    + rewrite (serve_tools_built true rt Hmode Hbuild) in Happ.
      simpl fst in Happ. rewrite served_rest_app_after_build in Happ.
      rewrite served_rest_app_served in Happ.
      destruct (mcp || mcp_sse); [discriminate|]. injection Happ as <-.
      exists rt. split; [reflexivity|]. split; [apply Hroutes|].
      apply forallb_forall. intros r Hr.
      change (In r (routes (rest_app (Some rt) true true))) in Hr.
      rewrite Hroutes in Hr.
      apply in_map_iff in Hr as (tool & <- & _). reflexivity.
    + rewrite (serve_tools_failed true e Hmode Hbuild) in Happ. discriminate.
  - intros Hrest rt Hbuild.
    rewrite (serve_tools_built true rt Hmode Hbuild). simpl fst.
    rewrite served_rest_app_after_build, served_rest_app_served.
    now rewrite Hrest.
Qed.

(** C5 (amended): with [serve_tools] set, [tools_only] not set and a
    configuration whose system prompt is not empty, the mode is the
    combined one and the routes that the builder registers are the agent
    route at [/], whose summary is the description of the configuration,
    followed by one route for each tool of the runtime, at [/] followed
    by the name of the tool and with the documentation string of the tool
    as summary, and no other; this is the table of the REST application
    that [_serve] serves. *)
Theorem combined_mode_route_table (prompt : string) :
  serve_tools = true ->
  tools_only = false ->
  system_prompt config = Some prompt ->
  prompt <> "" ->
  resolve_mode serve_tools tools_only config = (true, false) /\
  (forall rt,
     routes (rest_app (Some rt) true false) =
     the_agent_route :: map tool_route (tools rt)) /\
  (path the_agent_route = "/" /\
   summary the_agent_route = Some (description config) /\
   is_agent_route the_agent_route = true) /\
  (forall tool,
     path (tool_route tool) = ("/" ++ tool_name tool)%string /\
     summary (tool_route tool) = tool_doc tool /\
     is_agent_route (tool_route tool) = false) /\
  (mcp || mcp_sse = false ->
   forall rt,
     Runtime_build working_dir agent_name config debug = Ok rt ->
     exists app,
       served_rest_app (fst serve) = Some app /\
       routes app = the_agent_route :: map tool_route (tools rt)).
Proof.
  intros Hst Hto Hprompt Hne.
  assert (Hmode : resolve_mode serve_tools tools_only config = (true, false)).
  { unfold resolve_mode. rewrite Hst, Hto, Hprompt. simpl.
    apply String.eqb_neq in Hne. now rewrite Hne. }
  assert (Hroutes : forall rt,
             routes (rest_app (Some rt) true false) =
             the_agent_route :: map tool_route (tools rt))
    by (intros rt; now rewrite rest_app_routes).
  split; [exact Hmode|]. split; [exact Hroutes|].
  split; [now repeat split|]. split; [now repeat split|].
  intros Hrest rt Hbuild. exists (rest_app (Some rt) true false).
  split; [|apply Hroutes].
  rewrite (serve_tools_built false rt Hmode Hbuild). simpl fst.
  rewrite served_rest_app_after_build, served_rest_app_served.
  now rewrite Hrest.
Qed.

(** C8: the tool runtime is built exactly when [serve_tools] is true
    after mode resolution. When it is, the call of [Runtime.build] is the
    first outside call of [_serve], the route table builder is called
    after it and receives the runtime that was built, and no table is
    built if the construction raises. In agent-only mode [Runtime.build]
    is never called and the route table builder receives [None]. *)
Theorem tool_runtime_construction (st to : bool) :
  resolve_mode serve_tools tools_only config = (st, to) ->
  existsb is_runtime_build (fst serve) = st /\
  (st = false ->
   to = false /\
   exists ev, fst serve = [EvRouteTable None false false; ev] /\
              is_runtime_build ev = false /\ is_route_table ev = false) /\
  (st = true ->
   exists rest,
     fst serve = EvRuntimeBuild working_dir agent_name config debug :: rest /\
     existsb is_runtime_build rest = false /\
     match Runtime_build working_dir agent_name config debug with
     | Ok rt =>
         exists ev, rest = [EvRouteTable (Some rt) true to; ev] /\
                    is_route_table ev = false
     | Raise e => rest = [] /\ snd serve = Raise e
     end).
Proof.
  intros Hmode. destruct st.
  - assert (Htrue : exists rest,
               fst serve =
               EvRuntimeBuild working_dir agent_name config debug :: rest /\
               existsb is_runtime_build rest = false /\
               match Runtime_build working_dir agent_name config debug with
               | Ok rt =>
                   exists ev, rest = [EvRouteTable (Some rt) true to; ev] /\
                              is_route_table ev = false
               | Raise e => rest = [] /\ snd serve = Raise e
               end).
    { destruct (Runtime_build working_dir agent_name config debug)
        as [rt|e] eqn:Hbuild.
      - rewrite (serve_tools_built to rt Hmode Hbuild). simpl fst.
        exists (served (Some rt) true to). split; [reflexivity|].
        split; [apply served_no_runtime_build|].
        destruct (served_shape (Some rt) true to) as (ev & Hev & _ & Hrt).
        now exists ev.
      - rewrite (serve_tools_failed to e Hmode Hbuild). simpl.
        exists []. now repeat split. }
    split; [|split; [discriminate | intros _; exact Htrue]].
    destruct Htrue as (rest & -> & _ & _). reflexivity.
  - pose proof (resolve_mode_no_tools to Hmode) as ->.
    rewrite (serve_agent_only false Hmode). simpl fst.
    split; [apply served_no_runtime_build|].
    split; [|discriminate]. intros _. split; [reflexivity|].
    apply served_shape.
Qed.
End ServeFacts.

Lemma tools_only_mode_resolution_witness :
  let W := demo_world (demo_config None []) run_with_output (Ok demo_runtime) in
  resolve_mode false false (demo_config None []) = (true, true) /\
  served_rest_app
    (fst (_serve (W := W) "agent.yml" "127.0.0.1" 8667%Z false false false
            false false "gen" "chat" 0%Z 0%Z None false)) =
  Some {| routes := [tool_route echo_tool] |}.
Proof.
  intros W.
  destruct (tools_only_mode_resolution (W := W) "agent.yml" "127.0.0.1"
              8667%Z false false false false false "gen" "chat" 0%Z 0%Z None
              false "agent.yml" "agent.yml" (demo_config None []) [] eq_refl
              (or_intror (conj eq_refl (conj eq_refl eq_refl))))
    as (Hmode & _ & _ & Hserved).
  split; [exact Hmode|].
  exact (Hserved eq_refl demo_runtime eq_refl).
Defined.

(** The claim C5 as written fails for a system prompt that is the empty
    string: the test of the mode is the truth value of the prompt, so
    with no agent and no task directive the mode is tools-only and the
    route table, built with the resolved flags, has no agent route. *)
Lemma combined_mode_empty_system_prompt :
  ~ (forall (W : Collaborators) (input_path : Path)
       (generator conversation_strategy : string) (max_steps : Z)
       (max_cost : float) (timeout : option Z) (quiet : bool)
       (inputs : dict value) (config : Configuration) (prompt : string)
       (rt : Runtime),
       system_prompt config = Some prompt ->
       routes
         (_get_rest_api_app input_path generator conversation_strategy
            max_steps max_cost timeout quiet inputs config (Some rt)
            (fst (resolve_mode true false config))
            (snd (resolve_mode true false config))) =
       agent_route input_path generator conversation_strategy max_steps
         max_cost timeout quiet inputs config :: map tool_route (tools rt)).
Proof.
  intros H.
  specialize (H (demo_world (demo_config (Some "") []) run_with_output
                   (Ok demo_runtime))
                "agent.yml" "gen" "chat" 0%Z 0%Z None false []
                (demo_config (Some "") []) "" demo_runtime eq_refl).
  apply (f_equal (@length Route)) in H. vm_compute in H. discriminate H.
Qed.

(** A system prompt that is set to the empty string counts as absent. *)
Example empty_system_prompt_is_tools_only :
  resolve_mode true false (demo_config (Some "") []) = (true, true).
Proof. reflexivity. Qed.

Lemma combined_mode_route_table_witness :
  let config := demo_config (Some "You are helpful.") [("name", VStr "world")] in
  let W := demo_world config run_with_output (Ok demo_runtime) in
  exists app,
    served_rest_app
      (fst (_serve (W := W) "agent.yml" "127.0.0.1" 8667%Z false false false
              true false "gen" "chat" 0%Z 0%Z None false)) = Some app /\
    map path (routes app) = ["/"; "/echo"] /\
    map summary (routes app) = [Some "demo agent"; Some "Return the arguments."].
Proof.
  intros config W.
  assert (Hne : "You are helpful." <> "") by discriminate.
  destruct (combined_mode_route_table (W := W) "agent.yml" "127.0.0.1" 8667%Z
              false false false true false "gen" "chat" 0%Z 0%Z None false
              "agent.yml" "agent.yml" config [("name", VStr "world")] eq_refl
              "You are helpful." eq_refl eq_refl eq_refl Hne)
    as (_ & _ & _ & _ & Hserved).
  destruct (Hserved eq_refl demo_runtime eq_refl) as (app & Happ & Hroutes).
  exists app. split; [exact Happ|]. rewrite Hroutes. split; reflexivity.
Defined.

Lemma tool_runtime_construction_witness :
  let config := demo_config (Some "You are helpful.") [] in
  let W := demo_world config run_with_output (Ok demo_runtime) in
  resolve_mode false false config = (false, false) /\
  existsb is_runtime_build
    (fst (_serve (W := W) "agent.yml" "127.0.0.1" 8667%Z false false false
            false false "gen" "chat" 0%Z 0%Z None false)) = false.
Proof.
  intros config W. split; [reflexivity|].
  destruct (tool_runtime_construction (W := W) "agent.yml" "127.0.0.1" 8667%Z
              false false false false false "gen" "chat" 0%Z 0%Z None false
              "agent.yml" "agent.yml" config [] eq_refl false false eq_refl)
    as (Hbuilt & _).
  exact Hbuilt.
Defined.

(** In the combined mode the runtime is built first and handed to the
    route table builder. *)
Example tool_runtime_built_first :
  let config := demo_config (Some "You are helpful.") [] in
  let W := demo_world config run_with_output (Ok demo_runtime) in
  exists ev,
    fst (_serve (W := W) "agent.yml" "127.0.0.1" 8667%Z false false false
           true false "gen" "chat" 0%Z 0%Z None false) =
    [EvRuntimeBuild "agent.yml" "agent.yml" config false;
     EvRouteTable (Some demo_runtime) true false; ev].
Proof. intros config W. eexists. reflexivity. Qed.

(** ** More on the input resolver *)

Lemma PyDict_set_same {V : Type} (d : dict V) (k : string) (v : V) :
  PyDict.lookup d k = Some v -> PyDict.set d k v = d.
Proof.
  induction d as [|[k0 v0] d IH]; simpl; [discriminate|].
  destruct (String.eqb_spec k0 k) as [->|Hne].
  - now intros [= ->].
  - intros H. now rewrite IH.
Qed.

Lemma PyDict_lookup_In_keys {V : Type} (d : dict V) (k : string) :
  In k (PyDict.keys d) -> exists v, PyDict.lookup d k = Some v /\ In (k, v) d.
Proof.
  intros Hin. destruct (PyDict.lookup d k) as [v|] eqn:E.
  - exists v. split; [reflexivity|]. now apply PyDict_lookup_Some_In.
  - apply PyDict_lookup_None in E. contradiction.
Qed.

Lemma find_split {A : Type} (f : A -> bool) (l : list A) (x : A) :
  find f l = Some x ->
  exists pre post,
    l = pre ++ x :: post /\ f x = true /\ forall y, In y pre -> f y = false.
Proof.
  induction l as [|a l IH]; simpl; [discriminate|].
  destruct (f a) eqn:Ha.
  - intros [= ->]. exists [], l. repeat split; [assumption | intros y []].
  - intros H. destruct (IH H) as (pre & post & -> & Hx & Hpre).
    exists (a :: pre), post. repeat split; [assumption|].
    intros y [<-|Hy]; [assumption | now apply Hpre].
Qed.

Lemma is_None_false (v : value) : is_None v = false <-> v <> VNone.
Proof. destruct v; simpl; split; congruence. Qed.

(** The loop reads [inputs] and [data] only through the value it takes for
    each name it visits. *)
Lemma input_state_loop_ext (inputs data inputs' data' : dict value)
  (names : list string) (st : dict value) :
  (forall k, In k names ->
             input_value inputs data k = input_value inputs' data' k) ->
  input_state_loop inputs data names st =
  input_state_loop inputs' data' names st.
Proof.
  revert st. induction names as [|k names IH]; intros st Hagree; simpl.
  - reflexivity.
  - rewrite <- (Hagree k (or_introl eq_refl)).
    destruct (is_None (input_value inputs data k)); [reflexivity|].
    apply IH. intros k' Hk'. apply Hagree. now right.
Qed.

(** The loop leaves alone a state that already holds, under each name it
    visits, the non-null value taken for that name. *)
Lemma input_state_loop_stable (inputs data : dict value)
  (names : list string) (st : dict value) :
  (forall k, In k names ->
             input_value inputs data k <> VNone /\
             PyDict.lookup st k = Some (input_value inputs data k)) ->
  input_state_loop inputs data names st = Ok st.
Proof.
  induction names as [|k names IH]; intros Hst; simpl.
  - reflexivity.
  - destruct (Hst k (or_introl eq_refl)) as [Hv Hk].
    apply is_None_false in Hv. rewrite Hv.
    rewrite (PyDict_set_same _ _ _ Hk).
    apply IH. intros k' Hk'. apply Hst. now right.
Qed.

(** X1: the resolver returns a state exactly when every declared input has
    a non-null value, supplied or default. *)
Theorem resolver_succeeds_iff (inputs data : dict value) :
  is_Ok (_get_input_state_from_request inputs data) =
  forallb (fun k => negb (is_None (input_value inputs data k)))
          (PyDict.keys inputs).
Proof.
  destruct (first_missing inputs data) as [n|] eqn:Hf.
  - rewrite (resolver_raises _ _ _ Hf). simpl.
    destruct (first_missing_value _ _ _ Hf) as [Hin Hn].
    destruct (forallb _ _) eqn:E; [|reflexivity].
    rewrite forallb_forall in E. specialize (E n Hin).
    rewrite Hn in E. discriminate E.
  - rewrite (resolver_returns _ _ Hf). simpl. symmetry.
    apply forallb_forall. intros k Hk.
    unfold first_missing in Hf. now rewrite (find_none _ _ Hf k Hk).
Qed.

(** X2: the result of the resolver, state or error, depends on the payload
    only through its entries for declared names: two payloads that agree
    on every declared name resolve alike, whatever else they carry. *)
Theorem resolver_ignores_undeclared (inputs data data' : dict value) :
  (forall k, In k (PyDict.keys inputs) ->
             PyDict.lookup data k = PyDict.lookup data' k) ->
  _get_input_state_from_request inputs data =
  _get_input_state_from_request inputs data'.
Proof.
  intros Hagree. unfold _get_input_state_from_request, PyDict.copy.
  apply input_state_loop_ext. intros k Hk.
  unfold input_value, PyDict.get. now rewrite (Hagree k Hk).
Qed.

Lemma resolver_ignores_undeclared_witness :
  _get_input_state_from_request [("name", VNone)]
    [("name", VStr "bob"); ("debug", VBool true)] =
  _get_input_state_from_request [("name", VNone)] [("name", VStr "bob")].
Proof.
  apply (resolver_ignores_undeclared [("name", VNone)]
           [("name", VStr "bob"); ("debug", VBool true)]
           [("name", VStr "bob")]).
  intros k [<-|[]]. reflexivity.
Defined.

(** X3: a declaration in which every input has a non-null default
    resolves, for an empty payload, to the declaration itself. *)
Theorem resolver_defaults_only (inputs : dict value) :
  Forall (fun v => v <> VNone) (PyDict.values inputs) ->
  _get_input_state_from_request inputs [] = Ok inputs.
Proof.
  intros Hall. unfold _get_input_state_from_request, PyDict.copy.
  apply input_state_loop_stable. intros k Hk.
  destruct (PyDict_lookup_In_keys inputs k Hk) as (v & Hv & Hin).
  assert (E : input_value inputs [] k = v)
    by (unfold input_value, PyDict.get; simpl; now rewrite Hv).
  rewrite E. split; [|exact Hv].
  rewrite Forall_forall in Hall. apply Hall.
  unfold PyDict.values. change v with (snd (k, v)). now apply in_map.
Qed.

Lemma resolver_defaults_only_witness :
  _get_input_state_from_request
    [("name", VStr "world"); ("lang", VStr "en")] [] =
  Ok [("name", VStr "world"); ("lang", VStr "en")].
Proof.
  apply (resolver_defaults_only [("name", VStr "world"); ("lang", VStr "en")]).
  repeat constructor; discriminate.
Defined.

(** X4: resolution is idempotent. A resolved state, sent back as the
    payload, resolves to itself; taken as the declaration, it resolves to
    itself for the same payload and for an empty one. *)
Theorem resolver_idempotent (inputs data out : dict value) :
  _get_input_state_from_request inputs data = Ok out ->
  _get_input_state_from_request inputs out = Ok out /\
  _get_input_state_from_request out data = Ok out /\
  _get_input_state_from_request out [] = Ok out.
Proof.
  intros Hout.
  pose proof (resolver_keys _ _ _ Hout) as Hkeys.
  assert (Hval : forall k, In k (PyDict.keys inputs) ->
                   input_value inputs data k <> VNone /\
                   PyDict.lookup out k = Some (input_value inputs data k)).
  { intros k Hk. split.
    - exact (resolver_Ok_complete _ _ _ k Hout Hk).
    - exact (resolver_lookup _ _ _ k Hout Hk). }
  split; [|split].
  - transitivity (_get_input_state_from_request inputs data); [|exact Hout].
    unfold _get_input_state_from_request, PyDict.copy.
    apply input_state_loop_ext. intros k Hk.
    destruct (Hval k Hk) as [_ Hk'].
    unfold input_value at 1. unfold PyDict.get at 1. now rewrite Hk'.
  - unfold _get_input_state_from_request, PyDict.copy. rewrite Hkeys.
    apply input_state_loop_stable. intros k Hk.
    destruct (Hval k Hk) as [Hne Hk'].
    assert (E : input_value out data k = input_value inputs data k).
    { destruct (PyDict.lookup data k) as [v|] eqn:Ed.
      - unfold input_value, PyDict.get. now rewrite Ed.
      - unfold input_value at 1. unfold PyDict.get. now rewrite Ed, Hk'. }
    rewrite E. now split.
  - unfold _get_input_state_from_request, PyDict.copy. rewrite Hkeys.
    apply input_state_loop_stable. intros k Hk.
    destruct (Hval k Hk) as [Hne Hk'].
    assert (E : input_value out [] k = input_value inputs data k)
      by (unfold input_value at 1, PyDict.get; simpl; now rewrite Hk').
    rewrite E. now split.
Qed.

Lemma resolver_idempotent_witness :
  _get_input_state_from_request [("name", VNone); ("lang", VStr "en")]
    [("name", VStr "bob"); ("lang", VStr "en")] =
  Ok [("name", VStr "bob"); ("lang", VStr "en")].
Proof.
  destruct (resolver_idempotent [("name", VNone); ("lang", VStr "en")]
              [("name", VStr "bob")]
              [("name", VStr "bob"); ("lang", VStr "en")] eq_refl)
    as (H & _).
  exact H.
Defined.

(** X5: the only exception the resolver raises is the client error with
    status 400, and the input it names is declared, has a null value, and
    comes after declared inputs that all have a non-null value. *)
Theorem resolver_error_first (inputs data : dict value) (e : exn) :
  _get_input_state_from_request inputs data = Raise e ->
  exists pre n post,
    PyDict.keys inputs = pre ++ n :: post /\
    (forall k, In k pre -> input_value inputs data k <> VNone) /\
    input_value inputs data n = VNone /\
    e = HTTPException 400 ("input '" ++ n ++ "' is required").
Proof.
  intros He. apply resolver_Raise_inv in He as (n & Hn & ->).
  unfold first_missing in Hn.
  apply find_split in Hn as (pre & post & Hkeys & Hnone & Hpre).
  exists pre, n, post. repeat split.
  - exact Hkeys.
  - intros k Hk. apply is_None_false. now apply Hpre.
  - now destruct (input_value inputs data n).
Qed.

Lemma resolver_error_first_witness :
  exists pre n post,
    PyDict.keys [("a", VStr "x"); ("b", VNone); ("c", VNone)] =
    pre ++ n :: post /\
    HTTPException 400 "input 'b' is required" =
    HTTPException 400 ("input '" ++ n ++ "' is required").
Proof.
  destruct (resolver_error_first [("a", VStr "x"); ("b", VNone); ("c", VNone)]
              [] (HTTPException 400 "input 'b' is required") eq_refl)
    as (pre & n & post & Hkeys & _ & _ & He).
  exists pre, n, post. split; [exact Hkeys | exact He].
Defined.

(** X6: a payload that binds every declared input to a non-null value
    always resolves, whatever the defaults are, and the state holds the
    supplied value under each declared name. *)
Theorem resolver_payload_complete (inputs data : dict value) :
  (forall k, In k (PyDict.keys inputs) ->
             exists v, PyDict.lookup data k = Some v /\ v <> VNone) ->
  exists out,
    _get_input_state_from_request inputs data = Ok out /\
    PyDict.keys out = PyDict.keys inputs /\
    forall k, In k (PyDict.keys inputs) ->
              PyDict.lookup out k = PyDict.lookup data k.
Proof.
  intros Hall.
  assert (Hval : forall k, In k (PyDict.keys inputs) ->
                   PyDict.lookup data k = Some (input_value inputs data k) /\
                   input_value inputs data k <> VNone).
  { intros k Hk. destruct (Hall k Hk) as (v & Hv & Hne).
    unfold input_value, PyDict.get. rewrite Hv. now split. }
  destruct (_get_input_state_from_request inputs data) as [out|e] eqn:Hout.
  - exists out. split; [reflexivity|]. split.
    + exact (resolver_keys _ _ _ Hout).
    + intros k Hk. rewrite (resolver_lookup _ _ _ k Hout Hk).
      symmetry. now apply Hval.
  - apply resolver_Raise_inv in Hout as (n & Hn & _).
    apply first_missing_value in Hn as [Hin Hn].
    destruct (Hval n Hin) as [_ Hne]. contradiction.
Qed.

Lemma resolver_payload_complete_witness :
  exists out,
    _get_input_state_from_request [("name", VNone)] [("name", VStr "bob")] =
    Ok out /\
    PyDict.lookup out "name" = Some (VStr "bob").
Proof.
  destruct (resolver_payload_complete [("name", VNone)] [("name", VStr "bob")])
    as (out & Hout & _ & Hval).
  - intros k [<-|[]]. exists (VStr "bob"). split; [reflexivity | discriminate].
  - exists out. split; [exact Hout|]. apply (Hval "name"). now left.
Defined.

(** ** More on the request handlers *)

Section HandlerMore.
Context {W : Collaborators}.
Variables (input_path : Path) (generator conversation_strategy : string)
  (max_steps : Z) (max_cost : float) (timeout : option Z) (quiet : bool)
  (inputs : dict value).

Let on_request : dict value -> Request -> result value :=
  _create_agent_call_endpoint input_path generator conversation_strategy
    max_steps max_cost timeout quiet inputs.
Let run : dict value -> result (dict value) :=
  Runner_run input_path generator conversation_strategy max_steps max_cost
    timeout quiet.

(** X7: an agent request fails in one of three ways only, tried in this
    order: the payload does not resolve, and the error is the one of the
    resolver, raised without running the Runner; the Runner raises, and its
    exception goes through whatever [full] is; or the output state lacks
    the key [output] while the whole state was not asked for, and the
    error is [KeyError]. *)
Theorem agent_request_failures (data : dict value) (request : Request)
  (e : exn) :
  on_request data request = Raise e <->
  _get_input_state_from_request inputs data = Raise e \/
  (exists input_state,
     _get_input_state_from_request inputs data = Ok input_state /\
     run input_state = Raise e) \/
  (exists input_state output_state,
     _get_input_state_from_request inputs data = Ok input_state /\
     run input_state = Ok output_state /\
     raw_requested request = false /\
     PyDict.contains output_state "output" = false /\
     e = KeyError "output").
Proof.
  unfold on_request, run, _create_agent_call_endpoint, result_bind.
  destruct (_get_input_state_from_request inputs data) as [st|e1].
  - destruct (Runner_run _ _ _ _ _ _ _ st) as [out|e2] eqn:Hrun.
    + unfold PyDict.getitem, PyDict.contains.
      destruct (raw_requested request),
               (PyDict.lookup out "output") as [v|] eqn:Hv; split.
      * discriminate.
      * intros [H|[(st' & [= <-] & H)|(st' & out' & [= <-] & H & H' & _)]];
          [discriminate | congruence | discriminate].
      * discriminate.
      * intros [H|[(st' & [= <-] & H)|(st' & out' & [= <-] & H & H' & _)]];
          [discriminate | congruence | discriminate].
      * discriminate.
      * intros [H|[(st' & [= <-] & H)
                  |(st' & out' & [= <-] & H & _ & Hc & _)]];
          [discriminate | congruence |].
        assert (out' = out) by congruence. subst out'.
        rewrite Hv in Hc. discriminate.
      * intros [= <-]. right. right. exists st, out.
        rewrite Hv. now repeat split.
      * intros [H|[(st' & [= <-] & H)
                  |(st' & out' & _ & _ & _ & _ & ->)]];
          [discriminate | congruence | reflexivity].
    + split.
      * intros [= <-]. right. left. now exists st.
      * intros [H|[(st' & [= <-] & H)|(st' & out' & [= <-] & H & _)]];
          [discriminate | congruence | congruence].
  - split.
    + intros [= <-]. now left.
    + intros [H|[(st' & H & _)|(st' & out' & H & _)]];
        [congruence | discriminate | discriminate].
Qed.

End HandlerMore.

(** ** The query parameter [full] *)

Ltac by_ascii_cases c :=
  destruct c as [[] [] [] [] [] [] [] []]; reflexivity.

Lemma lower_ascii_t (c : ascii) :
  Ascii.eqb (lower_ascii c) "t" = (Ascii.eqb c "t" || Ascii.eqb c "T").
Proof. by_ascii_cases c. Qed.

Lemma lower_ascii_r (c : ascii) :
  Ascii.eqb (lower_ascii c) "r" = (Ascii.eqb c "r" || Ascii.eqb c "R").
Proof. by_ascii_cases c. Qed.

Lemma lower_ascii_u (c : ascii) :
  Ascii.eqb (lower_ascii c) "u" = (Ascii.eqb c "u" || Ascii.eqb c "U").
Proof. by_ascii_cases c. Qed.

Lemma lower_ascii_e (c : ascii) :
  Ascii.eqb (lower_ascii c) "e" = (Ascii.eqb c "e" || Ascii.eqb c "E").
Proof. by_ascii_cases c. Qed.

Lemma lower_is_true (s : string) :
  String.eqb (lower s) "true" = spells_true s.
Proof.
  destruct s as [|c1 [|c2 [|c3 [|c4 [|c5 s]]]]]; simpl;
    rewrite ?lower_ascii_t, ?lower_ascii_r, ?lower_ascii_u, ?lower_ascii_e.
  - reflexivity.
  - destruct (_ || _); reflexivity.
  - destruct (Ascii.eqb c1 "t" || Ascii.eqb c1 "T"); simpl; [|reflexivity].
    destruct (_ || _); reflexivity.
  - destruct (Ascii.eqb c1 "t" || Ascii.eqb c1 "T"); simpl; [|reflexivity].
    destruct (Ascii.eqb c2 "r" || Ascii.eqb c2 "R"); simpl; [|reflexivity].
    destruct (_ || _); reflexivity.
  - destruct (Ascii.eqb c1 "t" || Ascii.eqb c1 "T"); simpl; [|reflexivity].
    destruct (Ascii.eqb c2 "r" || Ascii.eqb c2 "R"); simpl; [|reflexivity].
    destruct (Ascii.eqb c3 "u" || Ascii.eqb c3 "U"); simpl; [|reflexivity].
    destruct (_ || _); reflexivity.
  - destruct (Ascii.eqb c1 "t" || Ascii.eqb c1 "T"); simpl; [|reflexivity].
    destruct (Ascii.eqb c2 "r" || Ascii.eqb c2 "R"); simpl; [|reflexivity].
    destruct (Ascii.eqb c3 "u" || Ascii.eqb c3 "U"); simpl; [|reflexivity].
    destruct (Ascii.eqb c4 "e" || Ascii.eqb c4 "E"); reflexivity.
Qed.

(** X9: the whole output state is asked for exactly when the query
    parameter [full] is present and spells [true] in any mix of upper and
    lower case; an absent parameter, the empty string, [1] or [yes] do not
    ask for it. *)
Theorem raw_requested_spells_true (request : Request) :
  raw_requested request =
  match PyDict.lookup (query_params request) "full" with
  | Some s => spells_true s
  | None => false
  end.
Proof.
  unfold raw_requested, PyDict.get. rewrite lower_is_true.
  destruct (PyDict.lookup (query_params request) "full"); reflexivity.
Qed.

(** ** More on the mode, the route table and the start-up *)

(** X10: mode resolution never gives tools-only without the tools: when the
    resolved [tools_only] is true so is the resolved [serve_tools]; when
    it is false both flags are as they were given; and resolving the
    resolved flags again changes nothing. *)
Theorem resolve_mode_invariant (serve_tools tools_only : bool)
  (config : Configuration) :
  let m := resolve_mode serve_tools tools_only config in
  (snd m = true -> fst m = true) /\
  (snd m = false -> fst m = serve_tools /\ tools_only = false) /\
  resolve_mode (fst m) (snd m) config = m.
Proof.
  unfold resolve_mode.
  destruct tools_only, serve_tools,
    (truthy_str (system_prompt config)), (truthy_str (agent config)),
    (truthy_str (task config)); simpl; repeat split; try discriminate;
    reflexivity.
Qed.

Lemma string_slash_root (n : string) :
  String.eqb ("/" ++ n) "/" = String.eqb n "".
Proof. destruct n; reflexivity. Qed.

Section ServeMore.
Context {W : Collaborators}.
Variables (input_path : Path) (host : string) (port : Z)
  (debug mcp mcp_sse serve_tools tools_only : bool)
  (generator conversation_strategy : string) (max_steps : Z)
  (max_cost : float) (timeout : option Z) (quiet : bool).
Variables (resolved_input_path : Path) (agent_name : string)
  (config : Configuration) (inputs : dict value).

Let working_dir : Path :=
  if path_is_dir resolved_input_path then resolved_input_path
  else path_parent resolved_input_path.
Let the_agent_route : Route :=
  agent_route resolved_input_path generator conversation_strategy max_steps
    max_cost timeout quiet inputs config.
Let rest_app (runtime : option Runtime) (st to : bool) : FastAPI :=
  _get_rest_api_app resolved_input_path generator conversation_strategy
    max_steps max_cost timeout quiet inputs config runtime st to.
Let run_serve : M unit :=
  _serve input_path host port debug mcp mcp_sse serve_tools tools_only
    generator conversation_strategy max_steps max_cost timeout quiet.
Let tool_routes (runtime : option Runtime) (st : bool) : list Route :=
  if st then match runtime with
             | Some rt => map tool_route (tools rt)
             | None => []
             end
  else [].

Lemma rest_app_routes_split runtime st to :
  routes (rest_app runtime st to) =
  (if to then [] else [the_agent_route]) ++ tool_routes runtime st.
Proof.
  unfold rest_app, the_agent_route, tool_routes.
  rewrite rest_app_routes. now destruct to.
Qed.

Lemma filter_tool_routes (f : Route -> bool) runtime st :
  (forall tool, f (tool_route tool) = false) ->
  filter f (tool_routes runtime st) = [].
Proof.
  intros Hf. unfold tool_routes. destruct st, runtime as [rt|]; try reflexivity.
  induction (tools rt) as [|tool ts IH]; simpl; [reflexivity|].
  now rewrite Hf.
Qed.

(** X11: the routes that the builder registers are, in this order, the
    agent route, there exactly when [tools_only] is false, then one tool
    route for each tool of the runtime, in the order of the runtime and
    with repeated names kept, when [serve_tools] is true and there is a
    runtime; the builder registers no other route. *)
Theorem route_table_partition runtime st to :
  let rs := routes (rest_app runtime st to) in
  rs = (if to then [] else [the_agent_route]) ++ tool_routes runtime st /\
  filter is_agent_route rs = (if to then [] else [the_agent_route]) /\
  filter (fun r => negb (is_agent_route r)) rs = tool_routes runtime st /\
  map path (tool_routes runtime st) =
  (if st then match runtime with
              | Some rt => map (fun tool => ("/" ++ tool_name tool)%string)
                               (tools rt)
              | None => []
              end
   else []) /\
  length rs =
  (if to then 0 else 1) +
  (if st then match runtime with
              | Some rt => length (tools rt)
              | None => 0
              end
   else 0).
Proof.
  simpl. rewrite rest_app_routes_split. repeat split.
  - rewrite filter_app, filter_tool_routes by reflexivity.
    destruct to; reflexivity.
  - rewrite filter_app.
    assert (E : filter (fun r => negb (is_agent_route r)) (tool_routes runtime st)
                = tool_routes runtime st).
    { unfold tool_routes. destruct st, runtime as [rt|]; try reflexivity.
      induction (tools rt) as [|tool ts IH]; simpl; [reflexivity|].
      now rewrite IH. }
    rewrite E. destruct to; reflexivity.
  - unfold tool_routes. destruct st, runtime as [rt|]; try reflexivity.
    now rewrite map_map.
  - rewrite length_app. unfold tool_routes.
    destruct to, st, runtime as [rt|]; simpl; rewrite ?length_map; reflexivity.
Qed.

(** X12: when no tool of the runtime has an empty name, the only route at
    [/] is the agent route: no tool route hides the agent endpoint, and
    in tools-only mode nothing answers at [/]. *)
Theorem root_path_unique runtime st to :
  (forall rt tool, runtime = Some rt -> In tool (tools rt) ->
                   tool_name tool <> "") ->
  filter (fun r => String.eqb (path r) "/") (routes (rest_app runtime st to)) =
  if to then [] else [the_agent_route].
Proof.
  intros Hnames. rewrite rest_app_routes_split, filter_app.
  assert (E : filter (fun r => String.eqb (path r) "/") (tool_routes runtime st)
              = []).
  { unfold tool_routes. destruct st, runtime as [rt|]; try reflexivity.
    specialize (Hnames rt).
    induction (tools rt) as [|tool ts IH]; [reflexivity|].
    cbn [map filter].
    change (String.eqb (path (tool_route tool)) "/")
      with (String.eqb ("/" ++ tool_name tool) "/").
    rewrite string_slash_root.
    destruct (String.eqb_spec (tool_name tool) "") as [E|_].
    - exfalso. apply (Hnames tool eq_refl); [now left | exact E].
    - apply IH. intros tool' Hrt Hin. apply Hnames; [exact Hrt | now right]. }
  rewrite E. destruct to; reflexivity.
Qed.

Hypothesis loaded :
  _get_agent_with_inputs input_path =
  Ok (resolved_input_path, agent_name, config, inputs).

(** X13: in agent-only mode, that is with neither flag set and a
    configuration that has a system prompt, an agent directive or a task
    directive that is not empty, [_serve] does not build the tool runtime:
    it calls the route table builder without a runtime, then the server
    with the REST application in which the builder has registered the
    agent route and no other, and it ends as the server does, with the
    exception of the server if the server raises. *)
Theorem agent_only_mode_served :
  serve_tools = false ->
  tools_only = false ->
  truthy_str (system_prompt config) = true \/
  truthy_str (agent config) = true \/ truthy_str (task config) = true ->
  mcp || mcp_sse = false ->
  resolve_mode serve_tools tools_only config = (false, false) /\
  run_serve =
  ([EvRouteTable None false false;
    EvServeHttp (RestApp {| routes := [the_agent_route] |}) agent_name "http"
      host port debug],
   uvicorn_serve (inl {| routes := [the_agent_route] |}) host port
     (if debug then "debug" else "warning")).
Proof.
  intros Hst Hto Hdir Hrest.
  assert (Hmode : resolve_mode serve_tools tools_only config = (false, false)).
  { unfold resolve_mode. rewrite Hst, Hto. simpl.
    destruct Hdir as [->|[->| ->]]; simpl; rewrite ?andb_false_r; reflexivity. }
  split; [exact Hmode|].
  unfold run_serve, _serve. rewrite loaded. simpl. rewrite Hmode. simpl.
  rewrite Hrest. reflexivity.
Qed.

(** X16: one transport serves, chosen by the flags: the SSE application
    when [mcp_sse] is set, whether [mcp] is set or not; the stream over
    standard input and output when only [mcp] is set; the REST application
    otherwise. It is the last outside call of [_serve], which ends as
    that call does, with its exception if it raises; the MCP server
    is the one that [create_server] returns for the runtime that was built
    and the flags after mode resolution. *)
Theorem transport_selection (st to : bool) (runtime : option Runtime) :
  resolve_mode serve_tools tools_only config = (st, to) ->
  (if st
   then exists rt, Runtime_build working_dir agent_name config debug = Ok rt /\
                   runtime = Some rt
   else runtime = None) ->
  let server :=
    create_server agent_name config inputs resolved_input_path generator
      conversation_strategy max_steps max_cost runtime timeout quiet st to in
  exists before,
    run_serve =
    (before ++
     [if mcp_sse
      then EvServeHttp (SseTransport (create_sse_app debug server)) agent_name
             "sse" host port debug
      else if mcp
      then EvServeStdio server agent_name
      else EvServeHttp (RestApp (rest_app runtime st to)) agent_name "http"
             host port debug],
     if mcp_sse
     then uvicorn_serve (inr (create_sse_app debug server)) host port
            (if debug then "debug" else "warning")
     else if mcp
     then stdio_run server
     else uvicorn_serve (inl (rest_app runtime st to)) host port
            (if debug then "debug" else "warning")) /\
    existsb is_serving before = false.
Proof.
  intros Hmode Hrt server. unfold run_serve, _serve. rewrite loaded. simpl.
  rewrite Hmode. destruct st.
  - destruct Hrt as (rt & Hbuild & ->). simpl. fold working_dir.
    rewrite Hbuild. simpl.
    exists [EvRuntimeBuild working_dir agent_name config debug;
            EvRouteTable (Some rt) true to].
    destruct mcp, mcp_sse; split; reflexivity.
  - subst runtime. simpl. exists [EvRouteTable None false to].
    destruct mcp, mcp_sse; split; reflexivity.
Qed.
End ServeMore.

Section StartupMore.
Context {W : Collaborators}.
Variables (input_path : Path) (host : string) (port : Z)
  (debug litellm_debug mcp mcp_sse serve_tools tools_only : bool)
  (generator conversation_strategy : string) (max_steps : Z)
  (max_cost : float) (timeout : option Z) (quiet : bool)
  (log_file : option Path).

Let run_serve : M unit :=
  _serve input_path host port debug mcp mcp_sse serve_tools tools_only
    generator conversation_strategy max_steps max_cost timeout quiet.

(** X14: a path that resolves to something that is not an agent
    configuration aborts the start-up: [_get_agent_with_inputs] raises
    [Abort] without reading a configuration, and [_serve] ends with that
    exception before it builds a runtime or a route table or serves. *)
Theorem invalid_agent_path_aborts (resolved : Path) :
  _resolve_input_path input_path = Ok resolved ->
  Configuration_is_agent_config resolved = false ->
  _get_agent_with_inputs input_path = Raise Abort /\
  run_serve = ([], Raise Abort).
Proof.
  intros Hres Hcfg.
  assert (H : _get_agent_with_inputs input_path = Raise Abort).
  { unfold _get_agent_with_inputs. rewrite Hres. simpl. now rewrite Hcfg. }
  split; [exact H|]. unfold run_serve, _serve. now rewrite H.
Qed.

(** X15: [_get_agent_with_inputs] succeeds exactly when the path resolves,
    the resolved path holds an agent configuration and that configuration
    loads; it then returns the resolved path, the agent name taken from
    the resolved path and not from the path given, the configuration, and
    the inputs that the configuration declares. *)
Theorem agent_with_inputs_loaded (resolved : Path) (name : string)
  (config : Configuration) (inputs : dict value) :
  _get_agent_with_inputs input_path = Ok (resolved, name, config, inputs) <->
  _resolve_input_path input_path = Ok resolved /\
  Configuration_is_agent_config resolved = true /\
  Configuration_from_path resolved = Ok config /\
  name = _get_agent_name resolved /\
  inputs = get_inputs config.
Proof.
  unfold _get_agent_with_inputs, result_bind.
  destruct (_resolve_input_path input_path) as [r|e].
  - destruct (Configuration_is_agent_config r) eqn:Hcfg; simpl.
    + destruct (Configuration_from_path r) as [c|e] eqn:Hfrom; split.
      * intros [= <- <- <- <-]. now repeat split.
      * intros ([= <-] & _ & Hc & -> & ->).
        rewrite Hfrom in Hc. now injection Hc as <-.
      * discriminate.
      * intros ([= <-] & _ & Hc & _). rewrite Hfrom in Hc. discriminate.
    + split; [discriminate|].
      intros ([= <-] & Ht & _). rewrite Hcfg in Ht. discriminate.
  - split; [discriminate|]. intros (H & _). discriminate.
Qed.

(** X17: the log never goes to the stream that carries the protocol: a
    run of [serve] that serves over standard input and output has set the
    log up on standard error, and a run that serves over HTTP, as a REST
    or an SSE application, has set it up on standard output. *)
Theorem log_target_follows_transport :
  let started :=
    serve input_path host port generator conversation_strategy debug
      litellm_debug quiet max_steps max_cost timeout log_file mcp mcp_sse
      serve_tools tools_only in
  snd started = run_serve /\
  (existsb is_serve_stdio (fst (snd started)) = true ->
   log_target (fst started) = Stderr) /\
  (existsb is_serve_http (fst (snd started)) = true ->
   log_target (fst started) = Stdout).
Proof.
  unfold serve. cbn [fst snd log_target]. split; [reflexivity|].
  unfold _serve, bind, lift, ret, emit, _serve_http_app.
  destruct (_get_agent_with_inputs input_path) as [[[[p n] c] i]|e];
    [|split; discriminate].
  destruct (resolve_mode serve_tools tools_only c) as [st to].
  destruct st; [destruct (Runtime_build _ n c debug) as [rt|e]|];
    destruct mcp, mcp_sse; simpl; split; (discriminate || reflexivity).
Qed.
End StartupMore.

Lemma root_path_unique_witness :
  let config := demo_config (Some "You are helpful.") [] in
  let W := demo_world config run_with_output (Ok demo_runtime) in
  map summary
    (filter (fun r => String.eqb (path r) "/")
       (routes
          (_get_rest_api_app (W := W) "agent.yml" "gen" "chat" 0%Z 0%Z None
             false [] config (Some {| tools := [echo_tool; ping_tool] |})
             true false))) =
  [Some "demo agent"].
Proof.
  intros config W.
  rewrite (root_path_unique (W := W) "gen" "chat" 0%Z 0%Z None false
             "agent.yml" config []
             (Some {| tools := [echo_tool; ping_tool] |}) true false).
  - reflexivity.
  - intros rt tool [= <-] [<-|[<-|[]]]; discriminate.
Defined.

Lemma agent_only_mode_served_witness :
  let config := demo_config (Some "You are helpful.") [] in
  let W := demo_world_port_taken config in
  resolve_mode false false config = (false, false) /\
  snd (_serve (W := W) "agent.yml" "127.0.0.1" 8667%Z false false false
         false false "gen" "chat" 0%Z 0%Z None false) =
  Raise (OtherError "address already in use").
Proof.
  intros config W.
  destruct (agent_only_mode_served (W := W) "agent.yml" "127.0.0.1" 8667%Z
              false false false false false "gen" "chat" 0%Z 0%Z None false
              "agent.yml" "agent.yml" config [] eq_refl eq_refl eq_refl
              (or_introl eq_refl) eq_refl) as [Hmode Hrun].
  split; [exact Hmode|]. now rewrite Hrun.
Defined.

Lemma transport_selection_witness :
  let config := demo_config None [] in
  let W := demo_world config run_with_output (Ok demo_runtime) in
  exists before,
    _serve (W := W) "agent.yml" "127.0.0.1" 8667%Z false true true false
      false "gen" "chat" 0%Z 0%Z None false =
    (before ++ [EvServeHttp (SseTransport tt) "agent.yml" "sse" "127.0.0.1"
                  8667%Z false],
     Ok tt).
Proof.
  intros config W.
  destruct (transport_selection (W := W) "agent.yml" "127.0.0.1" 8667%Z
              false true true false false "gen" "chat" 0%Z 0%Z None false
              "agent.yml" "agent.yml" config [] eq_refl true true
              (Some demo_runtime) eq_refl
              (ex_intro _ demo_runtime (conj eq_refl eq_refl)))
    as (before & Hrun & _).
  exists before. exact Hrun.
Defined.

Lemma invalid_agent_path_aborts_witness :
  _serve (W := demo_world_invalid) "notes.txt" "127.0.0.1" 8667%Z false
    false false true false "gen" "chat" 0%Z 0%Z None false =
  ([], Raise Abort).
Proof.
  destruct (invalid_agent_path_aborts (W := demo_world_invalid) "notes.txt"
              "127.0.0.1" 8667%Z false false false true false "gen" "chat"
              0%Z 0%Z None false "notes.txt" eq_refl eq_refl) as [_ H].
  exact H.
Defined.
